(** * ConnectLife standalone client: device communication core

    A shallow embedding of the token lifecycle ([oauth.py]), the request
    transport and schema narrowing ([api.py]) and the device parsers
    ([device_parsers/]) of the standalone ConnectLife client, with the
    properties of the design document stated against it.

    Python dictionaries whose iteration order is not observed are finite
    maps ([gmap]); the merged request parameters, whose order reaches the
    query string, are association lists.  Python floats are the kernel's
    binary64 floats.  Exceptions are values of type [exn]; a function that
    can raise returns a [result]. *)

From Stdlib Require Import ZArith Floats Ascii String.
From stdpp Require Import gmap strings list pretty.

Set Warnings "-register-all,-clear-no-such-hyp".
Set Default Proof Using "Type".

Local Open Scope Z_scope.

(* ================================================================= *)
(** * The Python values the client handles *)

Module Py.

(** Values decoded from JSON, and the numbers Python computes from them. *)
Inductive pyval :=
| PyNone
| PyBool (b : bool)
| PyInt (z : Z)
| PyFloat (f : float)
| PyStr (s : string)
| PyList (l : list pyval)
| PyDict (d : gmap string pyval).

(** Exception classes: those of [exceptions.py], those of aiohttp the
    client catches, and the built-in ones the modelled code can raise
    or meet ([TimeoutError] is what a request that runs out of time
    raises: it is no [aiohttp.ClientError]). *)
Inductive exn_class :=
| ConnectLifeError | AuthenticationError | TokenError | ApiError | DeviceError
| ClientError | ClientResponseError | ContentTypeError
| JSONDecodeError | ValueError | TypeError | OverflowError
| AttributeError | KeyError | UnboundLocalError | TimeoutError.

(** The text of a message, kept as the parts of the f-string that builds
    it: literal text, [str(v)], [repr(v)] and [str(err)]. *)
Inductive text :=
| Lit (s : string)
| Fmt (v : pyval)
| FmtRepr (v : pyval)
| FmtExn (c : exn_class) (msg : list text).

Record exn := Exn { exn_cls : exn_class; exn_msg : list text }.

Inductive result (A : Type) :=
| Ok (a : A)
| Raise (e : exn).
Arguments Ok {A} a.
Arguments Raise {A} e.

Definition bind {A B} (r : result A) (k : A -> result B) : result B :=
  match r with
  | Ok a => k a
  | Raise e => Raise e
  end.

#[export] Instance result_bind : MBind result := fun A B k r => bind r k.
#[export] Instance result_ret : MRet result := fun A a => Ok a.

(** [str(err)] inside an f-string. *)
Definition str_of_exn (e : exn) : text := FmtExn (exn_cls e) (exn_msg e).

(** [issubclass(c, d)] for the classes above. *)
Definition subclass (c d : exn_class) : bool :=
  match d, c with
  | ConnectLifeError,
    (ConnectLifeError | AuthenticationError | TokenError | ApiError | DeviceError) => true
  | ClientError, (ClientError | ClientResponseError | ContentTypeError) => true
  | ClientResponseError, (ClientResponseError | ContentTypeError) => true
  | ValueError, (ValueError | JSONDecodeError) => true
  | AuthenticationError, AuthenticationError | TokenError, TokenError
  | ApiError, ApiError | DeviceError, DeviceError
  | ContentTypeError, ContentTypeError | JSONDecodeError, JSONDecodeError
  | TypeError, TypeError | OverflowError, OverflowError
  | AttributeError, AttributeError | KeyError, KeyError
  | UnboundLocalError, UnboundLocalError | TimeoutError, TimeoutError => true
  | _, _ => false
  end.

(** Truth value of an object ([if v:], [not v]). *)
Definition truthy (v : pyval) : bool :=
  match v with
  | PyNone => false
  | PyBool b => b
  | PyInt z => negb (z =? 0)
  | PyFloat f => negb (PrimFloat.eqb f 0%float)
  | PyStr s => negb (String.eqb s "")
  | PyList l => match l with [] => false | _ => true end
  | PyDict d => negb (bool_decide (d = ∅))
  end.

(** Truth value of the result of [d.get(k)] ([None] when absent). *)
Definition truthy_opt (o : option pyval) : bool :=
  match o with
  | Some v => truthy v
  | None => false
  end.

(** Whether an object can be a dictionary key or set member. *)
Definition hashable (v : pyval) : bool :=
  match v with
  | PyList _ | PyDict _ => false
  | _ => true
  end.

(** ** Numbers *)

(** [float(z)] for an integer: the nearest binary64 value, ties to even. *)
Definition Z2float (z : Z) : float :=
  SF2Prim (binary_normalize 53 1024 z 0 false).

(** The binary64 value nearest to [m * 10^e10], for [m > 0]. *)
Definition dec2float (neg : bool) (m e10 : Z) : float :=
  if m =? 0 then (if neg then (-0)%float else 0%float)
  else if 0 <=? e10 then
    SF2Prim (binary_normalize 53 1024 ((if neg then -m else m) * 10 ^ e10) 0 false)
  else
    let '(q, e, l) := SFdiv_core_binary 53 1024 m 0 (10 ^ (- e10)) 0 in
    SF2Prim (binary_round_aux 53 1024 neg q e l).

Definition is_digit (c : ascii) : bool :=
  let n := nat_of_ascii c in (48 <=? n)%nat && (n <=? 57)%nat.

Definition digit_val (c : ascii) : Z := Z.of_nat (nat_of_ascii c) - 48.

(** The whitespace [float()] strips from an ASCII string. *)
Definition is_space (c : ascii) : bool :=
  let n := nat_of_ascii c in
  ((9 <=? n)%nat && (n <=? 13)%nat) || (n =? 32)%nat.

Definition lower (c : ascii) : ascii :=
  let n := nat_of_ascii c in
  if (65 <=? n)%nat && (n <=? 90)%nat then ascii_of_nat (n + 32) else c.

Definition upper (c : ascii) : ascii :=
  let n := nat_of_ascii c in
  if (97 <=? n)%nat && (n <=? 122)%nat then ascii_of_nat (n - 32) else c.

(** [digit (["_"] digit)*] after its first digit: the value and the
    number of digits read so far, and the rest of the input. *)
Fixpoint digitpart_tail (acc n : Z) (l : list ascii) : Z * Z * list ascii :=
  match l with
  | c :: l' =>
      if is_digit c then digitpart_tail (acc * 10 + digit_val c) (n + 1) l'
      else if Ascii.eqb c "_"%char then
        match l' with
        | d :: l'' =>
            if is_digit d then digitpart_tail (acc * 10 + digit_val d) (n + 1) l''
            else (acc, n, l)
        | [] => (acc, n, l)
        end
      else (acc, n, l)
  | [] => (acc, n, l)
  end.

Definition digitpart (acc n : Z) (l : list ascii) : option (Z * Z * list ascii) :=
  match l with
  | c :: l' =>
      if is_digit c then Some (digitpart_tail (acc * 10 + digit_val c) (n + 1) l')
      else None
  | [] => None
  end.

(** [[digitpart] "." digitpart | digitpart ["."]]: all digits as one
    integer, and how many of them follow the point. *)
Definition number (l : list ascii) : option (Z * Z * list ascii) :=
  match digitpart 0 0 l with
  | Some (m, _, rest) =>
      match rest with
      | c :: rest' =>
          if Ascii.eqb c "."%char then
            match digitpart m 0 rest' with
            | Some r => Some r
            | None => Some (m, 0, rest')
            end
          else Some (m, 0, rest)
      | [] => Some (m, 0, rest)
      end
  | None =>
      match l with
      | c :: rest' => if Ascii.eqb c "."%char then digitpart 0 0 rest' else None
      | [] => None
      end
  end.

Definition opt_sign (l : list ascii) : bool * list ascii :=
  match l with
  | c :: l' =>
      if Ascii.eqb c "-"%char then (true, l')
      else if Ascii.eqb c "+"%char then (false, l')
      else (false, l)
  | [] => (false, l)
  end.

(** [("e" | "E") [sign] digitpart], when present and well formed. *)
Definition opt_exponent (l : list ascii) : Z * list ascii :=
  match l with
  | c :: l' =>
      if Ascii.eqb (lower c) "e"%char then
        let '(neg, l'') := opt_sign l' in
        match digitpart 0 0 l'' with
        | Some (v, _, rest) => (if neg then - v else v, rest)
        | None => (0, l)
        end
      else (0, l)
  | [] => (0, l)
  end.

Fixpoint lstrip (l : list ascii) : list ascii :=
  match l with
  | c :: l' => if is_space c then lstrip l' else l
  | [] => []
  end.

Definition strip (l : list ascii) : list ascii :=
  rev (lstrip (rev (lstrip l))).

(** ** Strings

    A Python string is held as its UTF-8 encoding.  [utf8_decode]
    gives its code points, [None] when the bytes encode no string. *)
Definition is_continuation (b : N) : bool := (128 <=? b)%N && (b <? 192)%N.

Fixpoint utf8_decode (l : list ascii) : option (list N) :=
  match l with
  | [] => Some []
  | c0 :: l1 =>
      let b0 := N_of_ascii c0 in
      if (b0 <? 128)%N then cons b0 <$> utf8_decode l1
      else if (b0 <? 192)%N then None
      else if (b0 <? 224)%N then
        match l1 with
        | c1 :: l2 =>
            let b1 := N_of_ascii c1 in
            let cp := ((b0 - 192) * 64 + (b1 - 128))%N in
            if is_continuation b1 && (128 <=? cp)%N
            then cons cp <$> utf8_decode l2 else None
        | _ => None
        end
      else if (b0 <? 240)%N then
        match l1 with
        | c1 :: c2 :: l3 =>
            let b1 := N_of_ascii c1 in
            let b2 := N_of_ascii c2 in
            let cp := ((b0 - 224) * 4096 + (b1 - 128) * 64 + (b2 - 128))%N in
            if is_continuation b1 && is_continuation b2 && (2048 <=? cp)%N
            then cons cp <$> utf8_decode l3 else None
        | _ => None
        end
      else if (b0 <? 248)%N then
        match l1 with
        | c1 :: c2 :: c3 :: l4 =>
            let b1 := N_of_ascii c1 in
            let b2 := N_of_ascii c2 in
            let b3 := N_of_ascii c3 in
            let cp := ((b0 - 240) * 262144 + (b1 - 128) * 4096
                       + (b2 - 128) * 64 + (b3 - 128))%N in
            if is_continuation b1 && is_continuation b2 && is_continuation b3
               && (65536 <=? cp)%N && (cp <? 1114112)%N
            then cons cp <$> utf8_decode l4 else None
        | _ => None
        end
      else None
  end.

(** The code points of the digit zero of every decimal number system
    of Unicode 14.0, the database of CPython 3.11; the digits one to
    nine follow each of them. *)
Definition decimal_zeros : list N :=
  [0x30; 0x660; 0x6F0; 0x7C0; 0x966; 0x9E6; 0xA66; 0xAE6; 0xB66; 0xBE6; 0xC66;
   0xCE6; 0xD66; 0xDE6; 0xE50; 0xED0; 0xF20; 0x1040; 0x1090; 0x17E0; 0x1810;
   0x1946; 0x19D0; 0x1A80; 0x1A90; 0x1B50; 0x1BB0; 0x1C40; 0x1C50; 0xA620;
   0xA8D0; 0xA900; 0xA9D0; 0xA9F0; 0xAA50; 0xABF0; 0xFF10; 0x104A0; 0x10D30;
   0x11066; 0x110F0; 0x11136; 0x111D0; 0x112F0; 0x11450; 0x114D0; 0x11650;
   0x116C0; 0x11730; 0x118E0; 0x11950; 0x11C50; 0x11D50; 0x11DA0; 0x16A60;
   0x16AC0; 0x16B50; 0x1D7CE; 0x1D7D8; 0x1D7E2; 0x1D7EC; 0x1D7F6; 0x1E140;
   0x1E2F0; 0x1E950; 0x1FBF0]%N.

(** [Py_UNICODE_TODECIMAL]: the value of a decimal digit. *)
Definition unicode_decimal (cp : N) : option N :=
  (fun z => (cp - z)%N) <$>
    List.find (fun z => (z <=? cp)%N && (cp <? z + 10)%N) decimal_zeros.

(** [Py_UNICODE_ISSPACE] beyond ASCII. *)
Definition unicode_space (cp : N) : bool :=
  bool_decide (cp ∈ [0x85; 0xA0; 0x1680; 0x2028; 0x2029; 0x202F; 0x205F; 0x3000]%N)
  || ((0x2000 <=? cp)%N && (cp <=? 0x200A)%N).

(** What [float()] does first to a string that is not ASCII: every
    white space becomes a blank, every decimal digit its ASCII digit,
    code points below 127 stay, and the string is cut after the first
    code point that is none of these, which becomes a question
    mark. *)
Fixpoint transform_decimal_and_space (l : list N) : list ascii :=
  match l with
  | [] => []
  | cp :: l' =>
      if (cp <? 127)%N then ascii_of_N cp :: transform_decimal_and_space l'
      else if unicode_space cp then " "%char :: transform_decimal_and_space l'
      else
        match unicode_decimal cp with
        | Some d => ascii_of_N (48 + d) :: transform_decimal_and_space l'
        | None => ["?"%char]
        end
  end.

(** [float()] on ASCII text.  The grammar is the one of the language
    reference: optional sign, then [inf], [infinity] or [nan] in any
    case, or a decimal number with an optional exponent, underscores
    allowed between digits. *)
Definition float_of_ascii (l : list ascii) : option float :=
  let '(neg, body) := opt_sign (strip l) in
  let low := string_of_list_ascii (lower <$> body) in
  if String.eqb low "inf" || String.eqb low "infinity"
  then Some (if neg then neg_infinity else infinity)
  else if String.eqb low "nan" then Some nan
  else
    match number body with
    | Some (m, nfrac, rest) =>
        match opt_exponent rest with
        | (e, []) => Some (dec2float neg m (e - nfrac))
        | (_, _ :: _) => None
        end
    | None => None
    end.

(** [float(s)] for a string: [None] stands for [ValueError].  An
    ASCII string is read as it is, another one after
    [transform_decimal_and_space]. *)
Definition float_of_str (s : string) : option float :=
  let bytes := list_ascii_of_string s in
  match utf8_decode bytes with
  | Some cps =>
      if forallb (fun cp => (cp <? 128)%N) cps then float_of_ascii bytes
      else float_of_ascii (transform_decimal_and_space cps)
  | None => None
  end.

(** [float(v)]. *)
Definition py_float (v : pyval) : result float :=
  match v with
  | PyFloat f => Ok f
  | PyInt z =>
      let f := Z2float z in
      if PrimFloat.is_infinity f
      then Raise (Exn OverflowError [Lit "int too large to convert to float"])
      else Ok f
  | PyBool b => Ok (if b then 1%float else 0%float)
  | PyStr s =>
      match float_of_str s with
      | Some f => Ok f
      | None => Raise (Exn ValueError [Lit "could not convert string to float: "; FmtRepr v])
      end
  | PyNone | PyList _ | PyDict _ =>
      Raise (Exn TypeError [Lit "float() argument must be a string or a real number"])
  end.

(** The integer a number denotes when it is one ([bool] is a subclass
    of [int]). *)
Definition as_int (v : pyval) : option Z :=
  match v with
  | PyInt z => Some z
  | PyBool b => Some (Z.b2z b)
  | _ => None
  end.

(** Exact comparison of a float with an integer, as [float.__ge__]
    does it; [None] for NaN. *)
Definition float_cmp_Z (t : float) (z : Z) : option comparison :=
  match Prim2SF t with
  | S754_nan => None
  | S754_infinity s => Some (if s then Lt else Gt)
  | S754_zero _ => Some (0 ?= z)
  | S754_finite s m e =>
      let sm := if s then Z.neg m else Z.pos m in
      Some (if 0 <=? e then (sm * 2 ^ e ?= z) else (sm ?= z * 2 ^ (- e)))
  end.

(** [t >= v] for a float [t]. *)
Definition float_ge (t : float) (v : pyval) : result bool :=
  match v with
  | PyFloat g => Ok (PrimFloat.leb g t)
  | PyInt _ | PyBool _ =>
      Ok (match float_cmp_Z t (default 0 (as_int v)) with
          | Some (Gt | Eq) => true
          | _ => false
          end)
  | _ => Raise (Exn TypeError [Lit "'>=' not supported between instances of 'float' and another type"])
  end.

(** [t + v] for a float [t]. *)
Definition float_add (t : float) (v : pyval) : result pyval :=
  match v with
  | PyFloat g => Ok (PyFloat (t + g)%float)
  | PyInt _ | PyBool _ => f ← py_float v; Ok (PyFloat (t + f)%float)
  | _ => Raise (Exn TypeError [Lit "unsupported operand type(s) for +"])
  end.

(** [v - n] for an integer literal [n]. *)
Definition sub_int (v : pyval) (n : Z) : result pyval :=
  match v with
  | PyFloat g => Ok (PyFloat (g - Z2float n)%float)
  | PyInt _ | PyBool _ => Ok (PyInt (default 0 (as_int v) - n))
  | _ => Raise (Exn TypeError [Lit "unsupported operand type(s) for -"])
  end.

(** [v == 0]. *)
Definition eq_zero (v : pyval) : bool :=
  match v with
  | PyInt z => z =? 0
  | PyBool b => negb b
  | PyFloat f => PrimFloat.eqb f 0%float
  | _ => false
  end.

(** ** Strings *)

(** [str(v)]; [repr] stands for Python's rendering of floats, lists
    and dictionaries, which is not modelled. *)
Definition py_str (repr : pyval -> string) (v : pyval) : string :=
  match v with
  | PyStr s => s
  | PyInt z => pretty z
  | PyBool true => "True"
  | PyBool false => "False"
  | PyNone => "None"
  | PyFloat _ | PyList _ | PyDict _ => repr v
  end.

(** [s.split(sep)] for a one-character separator. *)
Fixpoint split_chars (sep : ascii) (cur l : list ascii) : list string :=
  match l with
  | [] => [string_of_list_ascii (rev cur)]
  | c :: l' =>
      if Ascii.eqb c sep then string_of_list_ascii (rev cur) :: split_chars sep [] l'
      else split_chars sep (c :: cur) l'
  end.

Definition str_split (s : string) (sep : ascii) : list string :=
  split_chars sep [] (list_ascii_of_string s).

(** [c in s] for a one-character [c]. *)
Definition str_contains (s : string) (c : ascii) : bool :=
  existsb (Ascii.eqb c) (list_ascii_of_string s).

(** [s.upper()] (ASCII). *)
Definition str_upper (s : string) : string :=
  string_of_list_ascii (upper <$> list_ascii_of_string s).

End Py.


(* ================================================================= *)
(** * device_parsers/base.py *)

Module Base.
Import Py.

Record DeviceAttribute := {
  key : string;
  name : string;
  attr_type : string;
  step : Z;
  value_range : option string;
  value_map : option (gmap string string);
  read_write : string
}.

(** [attr.value_map] when it is truthy (neither [None] nor empty). *)
Definition truthy_map (m : option (gmap string string)) : option (gmap string string) :=
  match m with
  | Some d => if bool_decide (d = ∅) then None else Some d
  | None => None
  end.

(** [attr.value_range] when it is truthy (neither [None] nor [""]). *)
Definition truthy_str (s : option string) : option string :=
  match s with
  | Some r => if String.eqb r "" then None else Some r
  | None => None
  end.

(** [value in d] followed by [d[value]] for a dictionary with string
    keys: a list or a dictionary is unhashable, any other object that
    is not a string equals no key. *)
Definition dict_find (value : pyval) (d : gmap string string) : result (option string) :=
  match value with
  | PyStr s => Ok (d !! s)
  | PyList _ | PyDict _ => Raise (Exn TypeError [Lit "unhashable type"])
  | _ => Ok None
  end.

(** The body of the [try] in [parse_status]. *)
Definition parse_value (attr : DeviceAttribute) (value : pyval) : result pyval :=
  label ← match truthy_map (value_map attr) with
           | Some d => dict_find value d
           | None => Ok None
           end;
  match label with
  | Some l => Ok (PyStr l)
  | None =>
      if String.eqb (attr_type attr) "Number"
      then f ← py_float value; Ok (PyFloat f)
      else Ok value
  end.

(** [except (ValueError, TypeError)]. *)
Definition is_value_or_type_error (e : exn) : bool :=
  subclass (exn_cls e) ValueError || subclass (exn_cls e) TypeError.

(** One turn of the loop of [parse_status]. *)
Definition parse_step (status : gmap string pyval) (k : string) (attr : DeviceAttribute)
    (acc : result (gmap string pyval)) : result (gmap string pyval) :=
  parsed_status ← acc;
  match status !! k with
  | None => Ok parsed_status
  | Some value =>
      match parse_value attr value with
      | Ok parsed_value => Ok (<[k := parsed_value]> parsed_status)
      | Raise e => if is_value_or_type_error e then Ok parsed_status else Raise e
      end
  end.

(** [BaseDeviceParser.parse_status], on the dictionary that
    [self.attributes] returns. *)
Definition parse_status (attributes : gmap string DeviceAttribute)
    (status : gmap string pyval) : result (gmap string pyval) :=
  map_fold (parse_step status) (Ok ∅) attributes.

(** One turn of the loop over [ranges] in [validate_value]: [Ok true]
    is [return True], [Ok false] goes on to the next range.  Unpacking
    [map(float, r.split("~"))] into two names raises [ValueError] when
    a part is not a number or when there are more than two parts. *)
Definition check_range (r : string) (num_value : float) : result bool :=
  if str_contains r "~"%char then
    match str_split r "~"%char with
    | [a; b] =>
        min_val ← py_float (PyStr a);
        max_val ← py_float (PyStr b);
        Ok (PrimFloat.leb min_val num_value && PrimFloat.leb num_value max_val)
    | _ => Raise (Exn ValueError [Lit "too many values to unpack (expected 2)"])
    end
  else
    f ← py_float (PyStr r);
    Ok (PrimFloat.eqb num_value f).

Fixpoint range_loop (ranges : list string) (num_value : float) : result bool :=
  match ranges with
  | [] => Ok false
  | r :: rest =>
      match check_range r num_value with
      | Ok true => Ok true
      | Ok false => range_loop rest num_value
      | Raise e => Raise e
      end
  end.

Section Validate.
(** Python's [repr] of floats, lists and dictionaries ([py_str]). *)
Variable repr : pyval -> string.

(** [BaseDeviceParser.validate_value]. *)
Definition validate_value (attributes : gmap string DeviceAttribute)
    (k : string) (value : pyval) : result bool :=
  match attributes !! k with
  | None => Ok false
  | Some attr =>
      if String.eqb (read_write attr) "R" then Ok false
      else
        match truthy_str (value_range attr) with
        | Some vr =>
            let ranges := str_split vr ","%char in
            match num_value ← py_float value; range_loop ranges num_value with
            | Ok b => Ok b
            | Raise e => if is_value_or_type_error e then Ok false else Raise e
            end
        | None =>
            match truthy_map (value_map attr) with
            | Some d => Ok (bool_decide (is_Some (d !! py_str repr value)))
            | None => Ok true
            end
        end
  end.

End Validate.

End Base.

(* ================================================================= *)
(** * device_parsers/: the attribute tables and the registry *)

Module Parsers.
Import Py Base.

(** A [value_map] literal. *)
Definition labels (l : list (string * string)) : option (gmap string string) :=
  Some (list_to_map l).

(** The dictionary literal of [BaseBeanParser.attributes]
    ([base_bean.py]); [step], [value_range], [value_map] and
    [read_write] default to [1], [None], [None] and ["RW"]. *)
Definition BaseBeanParser_table : list (string * DeviceAttribute) := [
  ("t_work_mode",
   Build_DeviceAttribute "t_work_mode" "Mode" "Enum" 1
     (Some "0,1,2,3,4,5")
     (labels [("0", "Fan"); ("1", "Heat"); ("2", "Cool"); ("3", "Dry"); ("4", "Auto"); ("5", "E-star")])
     "RW");
  ("t_power",
   Build_DeviceAttribute "t_power" "Power" "Enum" 1
     (Some "0,1")
     (labels [("0", "Off"); ("1", "On")])
     "RW");
  ("t_temp",
   Build_DeviceAttribute "t_temp" "Target Temperature" "Number" 1
     (Some "16~32,61~90")
     None
     "RW");
  ("t_fan_speed",
   Build_DeviceAttribute "t_fan_speed" "Fan Speed" "Enum" 1
     (Some "0,5,6,7,8,9")
     (labels [("2", "Low"); ("3", "Medium"); ("4", "High"); ("0", "Auto"); ("5", "Low"); ("6", "Mid-Low"); ("7", "Mid"); ("8", "Mid-High"); ("9", "High")])
     "RW");
  ("t_up_down",
   Build_DeviceAttribute "t_up_down" "Swing Vertical" "Enum" 1
     (Some "0,1")
     (labels [("0", "Off"); ("1", "On")])
     "RW");
  ("t_temp_type",
   Build_DeviceAttribute "t_temp_type" "Temperature Unit" "Enum" 1
     (Some "0,1")
     (labels [("0", "Celsius"); ("1", "Fahrenheit")])
     "RW");
  ("t_left_right",
   Build_DeviceAttribute "t_left_right" "Swing Horizontal" "Enum" 1
     (Some "0,1")
     (labels [("0", "Off"); ("1", "On")])
     "RW");
  ("f_power_consumption",
   Build_DeviceAttribute "f_power_consumption" "Power Consumption" "Number" 1
     None
     None
     "R");
  ("t_fan_mute",
   Build_DeviceAttribute "t_fan_mute" "Quiet Mode" "Enum" 1
     (Some "0,1")
     (labels [("0", "Off"); ("1", "On")])
     "RW");
  ("f_temp_in",
   Build_DeviceAttribute "f_temp_in" "Indoor Temperature" "Number" 1
     None
     None
     "R");
  ("t_8heat",
   Build_DeviceAttribute "t_8heat" "8Â°C Heat" "Enum" 1
     (Some "0,1")
     (labels [("0", "Off"); ("1", "On")])
     "RW");
  ("t_eco",
   Build_DeviceAttribute "t_eco" "Eco Mode" "Enum" 1
     (Some "0,1")
     (labels [("0", "Off"); ("1", "On")])
     "RW");
  ("t_humidity",
   Build_DeviceAttribute "t_humidity" "Target Humidity" "Number" 5
     (Some "30~80")
     None
     "RW");
  ("f_humidity",
   Build_DeviceAttribute "f_humidity" "Indoor Humidity" "Number" 1
     (Some "30~90")
     None
     "R");
  ("t_super",
   Build_DeviceAttribute "t_super" "Turbo" "Enum" 1
     (Some "0,1")
     (labels [("0", "Off"); ("1", "On")])
     "RW")
].

(** The dictionary literal of [SplitAC009199Parser.attributes]
    ([split_ac_009_199.py]). *)
Definition SplitAC009199Parser_table : list (string * DeviceAttribute) := [
  ("t_work_mode",
   Build_DeviceAttribute "t_work_mode" "Mode" "Enum" 1
     (Some "0,1,2,3,4")
     (labels [("0", "Fan"); ("1", "Heat"); ("2", "Cool"); ("3", "Dry"); ("4", "Auto")])
     "RW");
  ("t_power",
   Build_DeviceAttribute "t_power" "Power" "Enum" 1
     (Some "0,1")
     (labels [("0", "Off"); ("1", "On")])
     "RW");
  ("t_temp",
   Build_DeviceAttribute "t_temp" "Target Temperature" "Number" 1
     (Some "16~32,61~90")
     None
     "RW");
  ("t_fan_speed",
   Build_DeviceAttribute "t_fan_speed" "Fan Speed" "Enum" 1
     (Some "0,5,6,7,8,9")
     (labels [("0", "Auto"); ("5", "Ultra Low"); ("6", "Low"); ("7", "Medium"); ("8", "High"); ("9", "Ultra High")])
     "RW");
  ("t_up_down",
   Build_DeviceAttribute "t_up_down" "Swing Vertical" "Enum" 1
     (Some "0,1")
     (labels [("0", "Off"); ("1", "On")])
     "RW");
  ("t_left_right",
   Build_DeviceAttribute "t_left_right" "Swing Horizontal" "Enum" 1
     (Some "0,1")
     (labels [("0", "Off"); ("1", "On")])
     "RW");
  ("f_power_consumption",
   Build_DeviceAttribute "f_power_consumption" "Power Consumption" "Number" 1
     None
     None
     "R");
  ("t_fan_mute",
   Build_DeviceAttribute "t_fan_mute" "Quiet Mode" "Enum" 1
     (Some "0,1")
     (labels [("0", "Off"); ("1", "On")])
     "RW");
  ("t_super",
   Build_DeviceAttribute "t_super" "Turbo" "Enum" 1
     (Some "0,1")
     (labels [("0", "Off"); ("1", "On")])
     "RW");
  ("f_temp_in",
   Build_DeviceAttribute "f_temp_in" "Indoor Temperature" "Number" 1
     None
     None
     "R");
  ("t_8heat",
   Build_DeviceAttribute "t_8heat" "8Â°C Heat" "Enum" 1
     (Some "0,1")
     (labels [("0", "Off"); ("1", "On")])
     "RW")
].

(** The attribute the oven table declares for its first timer
    ([oven_013.py]). *)
Definition Sand_timer_1_status : DeviceAttribute :=
  Build_DeviceAttribute "Sand_timer_1_status" "Timer 1 Status" "Enum" 1
    (Some "0,1,2,3,4,5,6,7")
    (labels [("0", "Inactive"); ("1", "Running"); ("2", "Paused"); ("5", "Elapsed"); ("7", "Finished")])
    "RW".

(** The parser classes the package exports. *)
Inductive parser_class :=
| BaseBeanParser
| SplitAC009199Parser
| WindowAC008399Parser
| PortableAC006299Parser
| Dehumidifier007Parser
| HeatPump035699Parser
| Oven013Parser
| HeatPump044Parser
| HubController043Parser.

(** [issubclass(c, BaseBeanParser)]. *)
Definition is_bean (c : parser_class) : bool :=
  match c with
  | BaseBeanParser | WindowAC008399Parser | PortableAC006299Parser => true
  | _ => false
  end.

(** The registry [DEVICE_PARSERS] of [device_parsers/__init__.py]. *)
Definition DEVICE_PARSERS : gmap (string * string) parser_class :=
  list_to_map [
    (("035", "699"), HeatPump035699Parser);
    (("006", "299"), PortableAC006299Parser);
    (("007", ""), Dehumidifier007Parser);
    (("013", ""), Oven013Parser);
    (("044", ""), HeatPump044Parser);
    (("043", ""), HubController043Parser)
  ].

(** [get_device_parser]. *)
Definition get_device_parser (device_type feature_code : string) : result parser_class :=
  match DEVICE_PARSERS !! (device_type, feature_code) with
  | Some c => Ok c
  | None =>
      match DEVICE_PARSERS !! (device_type, "") with
      | Some c => Ok c
      | None =>
          if String.eqb device_type "007" then Ok Dehumidifier007Parser
          else
            let supported_device_types := ["009"; "008"; "006"; "016"] in
            if bool_decide (device_type ∈ supported_device_types) then Ok BaseBeanParser
            else Raise (Exn ValueError [Lit "Unsupported device type: "; Fmt (PyStr device_type)])
      end
  end.

(** ** Parser objects

    [DeviceAttribute] instances are mutable objects: they live in a
    store and dictionaries hold their addresses, so that two
    dictionaries can share one instance. *)
Abbreviation store := (list DeviceAttribute).

Record parser := {
  cls : parser_class;
  _attributes : option (gmap string nat)
}.

(** [parser_class()]. *)
Definition new_parser (c : parser_class) : parser :=
  {| cls := c; _attributes := None |}.

(** Evaluating a dictionary literal of [DeviceAttribute(...)] calls:
    every entry is a fresh object. *)
Definition new_objects (table : list (string * DeviceAttribute)) (h : store)
    : gmap string nat * store :=
  (list_to_map (imap (fun i kv => (kv.1, (length h + i)%nat)) table), h ++ table.*2).

(** The attributes a dictionary of addresses denotes. *)
Definition resolve (h : store) (d : gmap string nat) : gmap string DeviceAttribute :=
  omap (fun l => h !! l) d.

Section Tables.
(** The tables of the product lines whose parsers are plain data
    (dehumidifier, heat pumps, oven, hub). *)
Variable other_tables : parser_class -> list (string * DeviceAttribute).

Definition class_table (c : parser_class) : list (string * DeviceAttribute) :=
  match c with
  | BaseBeanParser | WindowAC008399Parser | PortableAC006299Parser => BaseBeanParser_table
  | SplitAC009199Parser => SplitAC009199Parser_table
  | _ => other_tables c
  end.

(** The classes whose [attributes] property keeps the dictionary in
    [self._attributes]: [BaseBeanParser] and its subclasses, the
    oven, the 044 heat pump and the hub. *)
Definition caches_attributes (c : parser_class) : bool :=
  match c with
  | BaseBeanParser | WindowAC008399Parser | PortableAC006299Parser
  | Oven013Parser | HeatPump044Parser | HubController043Parser => true
  | SplitAC009199Parser | Dehumidifier007Parser | HeatPump035699Parser => false
  end.

(** The [attributes] property: a class of [caches_attributes] builds
    its dictionary on first use and keeps it in [self._attributes];
    the other classes return a new dictionary at every call. *)
Definition attributes (p : parser) (h : store) : gmap string nat * parser * store :=
  if caches_attributes (cls p) then
    match _attributes p with
    | Some d => (d, p, h)
    | None =>
        let '(d, h') := new_objects (class_table (cls p)) h in
        (d, {| cls := cls p; _attributes := Some d |}, h')
    end
  else
    let '(d, h') := new_objects (class_table (cls p)) h in
    (d, p, h').

(** [parser.parse_status(status)]. *)
Definition parser_parse_status (p : parser) (status : gmap string pyval) (h : store)
    : result (gmap string pyval) * parser * store :=
  let '(d, p', h') := attributes p h in
  (parse_status (resolve h' d) status, p', h').

End Tables.

End Parsers.

(* ================================================================= *)
(** * The environment and the mutable state of a client *)

Module World.
Import Py.

(** What the token endpoint answers to one POST: the request fails in
    the network, or a response arrives; [resp_json] is what
    [await resp.json()] returns or raises for it. *)
Record token_response := {
  resp_status : Z;
  resp_json : result pyval;
  resp_text : string
}.

Inductive token_outcome :=
| TokenNetworkError (msg : list text)
| TokenResponse (r : token_response).

(** What the API answers to one request: [session.request] raises
    (an [aiohttp.ClientError] when the connection fails, a
    [TimeoutError] when the request runs out of time, or anything
    else), or a response arrives.  [api_loads] is what
    [json.loads(response_text)] returns ([None]: it raises
    [JSONDecodeError]) and [api_status_error] is the text of the
    [ClientResponseError] that [raise_for_status()] raises when the
    status is 400 or more. *)
Record api_response := {
  api_status : Z;
  api_text : string;
  api_loads : option pyval;
  api_status_error : list text
}.

Inductive api_outcome :=
| ApiRaises (e : exn)
| ApiResponse (r : api_response).

(** The request handed to [session.request]. *)
Record request := {
  req_method : string;
  req_url : string;
  req_data : option string;
  req_headers : list (string * pyval);
  (** the merged parameters that [req_url] or [req_data] serialise *)
  req_query : option (list (string * pyval));
  req_body : option (list (string * pyval))
}.

(** Everything the client reads from outside: the configuration
    ([config.py]), the clock, fresh UUIDs, the library functions that
    are not modelled, and the two servers.  The [n]-th call of
    [time.time()], of [uuid.uuid1()], the [n]-th POST to the token
    endpoint and the [n]-th API request get the [n]-th answer. *)
Record env := {
  CLIENT_ID : string;
  CLIENT_SECRET : string;
  OAUTH2_CALLBACK_URL : string;
  OAUTH2_TOKEN : string;
  API_BASE_URL : string;
  time : nat -> float;
  utcnow_gmt : nat -> string;
  uuid1_hex : nat -> string;
  md5_hex : string -> string;
  hmac_sha256_b64 : string -> string -> string;
  sha256_b64 : string -> string;
  json_dumps : pyval -> string;
  json_dumps_items : list (string * pyval) -> string;
  repr : pyval -> string;
  token_endpoint : nat -> token_outcome;
  api_endpoint : nat -> api_outcome
}.

(** The mutable state: the session's token dictionary, the token file,
    the client's memoised source id, and the history of what was read
    and sent. *)
Record world := {
  token : gmap string pyval;
  token_file : option (gmap string pyval);
  saves : nat;
  clock : nat;
  uuids : nat;
  posts : list (gmap string pyval);
  _source_id : option string;
  requests : list request
}.

Definition set_token (t : gmap string pyval) (w : world) : world :=
  {| token := t; token_file := token_file w; saves := saves w; clock := clock w;
     uuids := uuids w; posts := posts w; _source_id := _source_id w;
     requests := requests w |}.

Definition write_file (f : option (gmap string pyval)) (w : world) : world :=
  {| token := token w; token_file := f; saves := S (saves w); clock := clock w;
     uuids := uuids w; posts := posts w; _source_id := _source_id w;
     requests := requests w |}.

Definition tick (w : world) : world :=
  {| token := token w; token_file := token_file w; saves := saves w;
     clock := S (clock w); uuids := uuids w; posts := posts w;
     _source_id := _source_id w; requests := requests w |}.

Definition next_uuid (w : world) : world :=
  {| token := token w; token_file := token_file w; saves := saves w;
     clock := clock w; uuids := S (uuids w); posts := posts w;
     _source_id := _source_id w; requests := requests w |}.

Definition log_post (data : gmap string pyval) (w : world) : world :=
  {| token := token w; token_file := token_file w; saves := saves w;
     clock := clock w; uuids := uuids w; posts := posts w ++ [data];
     _source_id := _source_id w; requests := requests w |}.

Definition set_source_id (s : option string) (w : world) : world :=
  {| token := token w; token_file := token_file w; saves := saves w;
     clock := clock w; uuids := uuids w; posts := posts w;
     _source_id := s; requests := requests w |}.

Definition log_request (r : request) (w : world) : world :=
  {| token := token w; token_file := token_file w; saves := saves w;
     clock := clock w; uuids := uuids w; posts := posts w;
     _source_id := _source_id w; requests := requests w ++ [r] |}.

(** Computations that read and change the state and may raise. *)
Definition io (A : Type) : Type := world -> result A * world.

#[export] Instance io_ret : MRet io := fun A a w => (Ok a, w).

#[export] Instance io_bind : MBind io := fun A B k m w =>
  match m w with
  | (Ok a, w') => k a w'
  | (Raise e, w') => (Raise e, w')
  end.

Definition raise {A} (c : exn_class) (msg : list text) : io A :=
  fun w => (Raise (Exn c msg), w).

Definition lift {A} (r : result A) : io A := fun w => (r, w).

Definition get {A} (f : world -> A) : io A := fun w => (Ok (f w), w).

Definition modify (f : world -> world) : io unit := fun w => (Ok tt, f w).

(** [try: m except Exception as e: handler(e)], for the exceptions
    [handles] selects. *)
Definition try_except {A} (m : io A) (handles : exn -> bool) (handler : exn -> io A) : io A :=
  fun w =>
    match m w with
    | (Ok a, w') => (Ok a, w')
    | (Raise e, w') => if handles e then handler e w' else (Raise e, w')
    end.

End World.

(* ================================================================= *)
(** * oauth.py *)

Module OAuth.
Import Py World.

Section Session.
Variable E : env.

(** [time.time()]. *)
Definition time_time : io float :=
  fun w => (Ok (time E (clock w)), tick w).

(** [TokenStorage.save]: the file holds the dictionary as it is at the
    call. *)
Definition save (t : gmap string pyval) : io unit :=
  modify (write_file (Some t)).

(** [TokenStorage.clear]. *)
Definition clear : io unit :=
  modify (write_file None).

(** [OAuth2Session._is_token_expired]. *)
Definition _is_token_expired : io bool :=
  tok ← get token;
  let expires_at := tok !! "expires_at" in
  if negb (truthy_opt expires_at) then
    let expires_in := default (PyInt 0) (tok !! "expires_in") in
    if truthy expires_in then
      now ← time_time;
      v ← lift (float_add now expires_in);
      modify (set_token (<["expires_at" := v]> tok));;
      mret false
    else mret true
  else
    now ← time_time;
    limit ← lift (sub_int (default PyNone expires_at) 300);
    lift (float_ge now limit).

(** [OAuth2Session._token_request]. *)
Definition _token_request (data : gmap string pyval) : io (gmap string pyval) :=
  n ← get (fun w => length (posts w));
  modify (log_post data);;
  match token_endpoint E n with
  | TokenNetworkError msg => raise ClientError msg
  | TokenResponse resp =>
      response ← lift (resp_json resp);
      match response with
      | PyDict response =>
          if bool_decide (is_Some (response !! "error")) then
            let error := default (PyStr "Unknown error") (response !! "error") in
            let error_desc := default (PyStr "No details provided") (response !! "error_description") in
            raise AuthenticationError
              [Lit "Authentication failed: "; Fmt error; Lit " - "; Fmt error_desc]
          else if negb (eq_zero (default (PyInt 0) (response !! "resultCode"))) then
            let error := default (PyStr "Unknown error") (response !! "error") in
            let error_desc := default (PyStr "No details provided") (response !! "error_description") in
            raise AuthenticationError
              [Lit "Authentication failed: "; Fmt error; Lit " - "; Fmt error_desc]
          else if negb (resp_status resp =? 200) then
            raise AuthenticationError
              [Lit "Token request failed: "; Fmt (PyInt (resp_status resp)); Lit " - ";
               Lit (resp_text resp)]
          else if negb (bool_decide (is_Some (response !! "access_token"))) then
            raise AuthenticationError [Lit "Invalid response: access_token not found"]
          else
            match response !! "expires_in", response !! "expires_at" with
            | Some expires_in, None =>
                now ← time_time;
                v ← lift (float_add now expires_in);
                mret (<["expires_at" := v]> response)
            | _, _ => mret response
            end
      | PyList _ | PyStr _ =>
          raise AttributeError [Lit "object has no attribute 'get'"]
      | _ => raise TypeError [Lit "argument is not iterable"]
      end
  end.

(** [OAuth2Session._refresh_token]. *)
Definition _refresh_token : io (gmap string pyval) :=
  tok ← get token;
  match tok !! "refresh_token" with
  | Some refresh_token =>
      if truthy refresh_token then
        let data : gmap string pyval :=
          <["grant_type" := PyStr "refresh_token"]>
          (<["client_id" := PyStr (CLIENT_ID E)]>
          (<["client_secret" := PyStr (CLIENT_SECRET E)]>
          (<["refresh_token" := refresh_token]> ∅))) in
        _token_request data
      else raise TokenError [Lit "No refresh token available"]
  | None => raise TokenError [Lit "No refresh token available"]
  end.

(** [OAuth2Session.async_ensure_token_valid]. *)
Definition async_ensure_token_valid : io unit :=
  tok ← get token;
  if bool_decide (tok = ∅) then
    raise TokenError [Lit "No token available. Please authenticate first."]
  else
    expired ← _is_token_expired;
    if (expired : bool) then
      try_except
        (token_data ← _refresh_token;
         tok ← get token;
         modify (set_token (token_data ∪ tok));;
         tok ← get token;
         save tok : io unit)
        (fun _ => true)
        (fun e => raise TokenError [Lit "Failed to refresh token: "; str_of_exn e])
    else mret tt.

(** [OAuth2Session.async_get_access_token]. *)
Definition async_get_access_token : io pyval :=
  async_ensure_token_valid;;
  tok ← get token;
  match tok !! "access_token" with
  | Some v => mret v
  | None => raise KeyError [FmtRepr (PyStr "access_token")]
  end.

(** [OAuth2Session.exchange_code]. *)
Definition exchange_code (code : string) : io (gmap string pyval) :=
  let data : gmap string pyval :=
    <["grant_type" := PyStr "authorization_code"]>
    (<["client_id" := PyStr (CLIENT_ID E)]>
    (<["client_secret" := PyStr (CLIENT_SECRET E)]>
    (<["code" := PyStr code]>
    (<["redirect_uri" := PyStr (OAUTH2_CALLBACK_URL E)]> ∅)))) in
  tok ← _token_request data;
  modify (set_token tok);;
  save tok;;
  mret tok.

(** [OAuth2Session.login_with_password]. *)
Definition login_with_password (username password : string) : io (gmap string pyval) :=
  let data : gmap string pyval :=
    <["grant_type" := PyStr "password"]>
    (<["client_id" := PyStr (CLIENT_ID E)]>
    (<["client_secret" := PyStr (CLIENT_SECRET E)]>
    (<["username" := PyStr username]>
    (<["password" := PyStr password]>
    (<["scope" := PyStr "all"]> ∅))))) in
  try_except
    (tok ← _token_request data;
     modify (set_token tok);;
     save tok;;
     mret tok : io (gmap string pyval))
    (fun e => subclass (exn_cls e) AuthenticationError)
    (fun _ => raise AuthenticationError
                [Lit "Login failed. Please check your email and password."]).

(** [OAuth2Session.is_authenticated]. *)
Definition is_authenticated (w : world) : bool :=
  truthy_opt (token w !! "access_token").

(** [OAuth2Session.logout]. *)
Definition logout : io unit :=
  modify (set_token ∅);;
  clear.

End Session.

End OAuth.

(* ================================================================= *)
(** * api.py: the signed request transport *)

Module Transport.
Import Py World OAuth.

(** ** Dictionaries whose order reaches the wire *)

(** [d[k] = v]: a new key goes last, an old one keeps its place. *)
Fixpoint od_set (k : string) (v : pyval) (d : list (string * pyval)) : list (string * pyval) :=
  match d with
  | [] => [(k, v)]
  | (k', v') :: d' => if String.eqb k' k then (k, v) :: d' else (k', v') :: od_set k v d'
  end.

(** [d.update(other)]. *)
Definition od_update (d other : list (string * pyval)) : list (string * pyval) :=
  foldl (fun acc kv => od_set kv.1 kv.2 acc) d other.

(** [d.pop(k, None)], for its effect on [d]. *)
Definition od_pop (k : string) (d : list (string * pyval)) : list (string * pyval) :=
  List.filter (fun kv => negb (String.eqb kv.1 k)) d.

Definition od_get (k : string) (d : list (string * pyval)) : option pyval :=
  snd <$> List.find (fun kv => String.eqb kv.1 k) d.

Definition newline : string := String (ascii_of_nat 10) "".

(** [int(f)] for a float: truncation towards zero. *)
Definition int_of_float (f : float) : result Z :=
  match Prim2SF f with
  | S754_nan => Raise (Exn ValueError [Lit "cannot convert float NaN to integer"])
  | S754_infinity _ => Raise (Exn OverflowError [Lit "cannot convert float infinity to integer"])
  | S754_zero _ => Ok 0
  | S754_finite s m e =>
      let sm := if s then Z.neg m else Z.pos m in
      Ok (if 0 <=? e then sm * 2 ^ e else Z.quot sm (2 ^ (- e)))
  end.

(** [str(u)] for a UUID given by its 32 hexadecimal digits. *)
Definition uuid_str (hex : string) : string :=
  substring 0 8 hex +:+ "-" +:+ substring 8 4 hex +:+ "-" +:+ substring 12 4 hex
  +:+ "-" +:+ substring 16 4 hex +:+ "-" +:+ substring 20 12 hex.

Fixpoint drop_host (l : list ascii) : list ascii :=
  match l with
  | c :: l' => if Ascii.eqb c "/"%char then l else drop_host l'
  | [] => []
  end.

(** [calculate_path]: [re.sub(r"^https://[^/]*", "", url)]. *)
Definition calculate_path (url : string) : string :=
  let l := list_ascii_of_string url in
  let scheme := list_ascii_of_string "https://" in
  if bool_decide (take (length scheme) l = scheme)
  then string_of_list_ascii (drop_host (drop (length scheme) l))
  else url.

(** [calculate_encrypt]. *)
Definition calculate_encrypt (secret_key method path gmt_date header : string) : string :=
  secret_key +:+ newline +:+ method +:+ " " +:+ path +:+ newline
  +:+ "date: " +:+ gmt_date +:+ newline +:+ header +:+ newline.

(** ["&".join(parts)]. *)
Fixpoint join_amp (parts : list string) : string :=
  match parts with
  | [] => ""
  | [p] => p
  | p :: rest => p +:+ "&" +:+ join_amp rest
  end.

Section Client.
Variable E : env.

(** [calculate_signature_sha256]. *)
Definition calculate_signature_sha256 (secret params : string) : string :=
  hmac_sha256_b64 E secret params.

(** [calculate_body_digest_sha256]. *)
Definition calculate_body_digest_sha256 (body : option (list (string * pyval))) : string :=
  match body with
  | Some (kv :: rest) => sha256_b64 E (json_dumps_items E (kv :: rest))
  | _ => "47DEQpj8HBSa+/TImW+5JCeuQeRkm5NMpJWZG3hSuFU="
  end.

(** [uuid.uuid1()], as its hexadecimal digits. *)
Definition uuid1 : io string :=
  fun w => (Ok (uuid1_hex E (uuids w)), next_uuid w).

(** [int(time.time() * 1000)]. *)
Definition timestamp_ms : io Z :=
  now ← time_time E;
  lift (int_of_float (now * 1000)%float).

(** [_generate_uuid]. *)
Definition _generate_uuid : io string :=
  u ← uuid1;
  ms ← timestamp_ms;
  mret (u +:+ pretty ms).

(** [_get_source_id]. *)
Definition _get_source_id : io string :=
  sid ← get _source_id;
  match sid with
  | Some s =>
      if String.eqb s "" then
        uuid_s ← _generate_uuid;
        let s' := "td001002000" +:+ md5_hex E uuid_s in
        modify (set_source_id (Some s'));;
        mret s'
      else mret s
  | None =>
      uuid_s ← _generate_uuid;
      let s' := "td001002000" +:+ md5_hex E uuid_s in
      modify (set_source_id (Some s'));;
      mret s'
  end.

(** [_get_system_parameters]. *)
Definition _get_system_parameters : io (list (string * pyval)) :=
  timestamp ← timestamp_ms;
  u ← uuid1;
  let random_str := md5_hex E (uuid_str u +:+ pretty timestamp) in
  source_id ← _get_source_id;
  let params :=
    [("timeStamp", PyStr (pretty timestamp));
     ("version", PyStr "8.1");
     ("languageId", PyStr "1");
     ("timezone", PyStr "UTC");
     ("randStr", PyStr random_str);
     ("appId", PyStr (CLIENT_ID E));
     ("sourceId", PyStr source_id);
     ("platformId", PyInt 5)] in
  try_except
    (access_token ← async_get_access_token E;
     mret (if truthy access_token then od_set "accessToken" access_token params else params))
    (fun _ => true)
    (fun _ => mret params).

(** The text of one query parameter. *)
Definition query_param (kv : string * pyval) : string :=
  let value :=
    match kv.2 with
    | PyDict _ | PyList _ => json_dumps E kv.2
    | v => py_str (repr E) v
    end in
  kv.1 +:+ "=" +:+ value.

(** The request and the response handling of [_api_request]: what
    [session.request] raises, or the body of the [async with]
    block. *)
Definition handle_response (o : api_outcome) : io (gmap string pyval) :=
  match o with
  | ApiRaises e => raise (exn_cls e) (exn_msg e)
  | ApiResponse resp =>
      if 400 <=? api_status resp then raise ClientResponseError (api_status_error resp)
      else
        match api_loads resp with
        | None => raise ApiError [Lit "Invalid JSON response: "; Lit (api_text resp)]
        | Some (PyDict response_data) =>
            if negb (eq_zero (default PyNone (response_data !! "resultCode"))) then
              let error_msg := default (PyStr "Unknown error") (response_data !! "msg") in
              raise ApiError [Lit "API error: "; Fmt error_msg]
            else mret response_data
        | Some response_data =>
            raise ApiError [Lit "Unexpected response format: "; Fmt response_data]
        end
  end.

(** [_api_request]. *)
Definition _api_request (method endpoint : string)
    (data : option (list (string * pyval))) (headers : option (list (string * pyval)))
    : io (gmap string pyval) :=
  try_except
    (async_ensure_token_valid E;;
     params ← _get_system_parameters;
     let request_data :=
       match data with
       | Some (kv :: rest) => kv :: rest
       | _ => []
       end in
     let request_data := od_update request_data params in
     let headers := default [] headers in
     let is_get := String.eqb (str_upper method) "GET" in
     headers ← (if is_get
                then tok ← async_get_access_token E; mret (od_set "accessToken" tok headers)
                else mret headers);
     let url := API_BASE_URL E +:+ endpoint in
     let url_params := od_pop "accessToken" request_data in
     let url := if is_get then url +:+ "?" +:+ join_amp (query_param <$> url_params) else url in
     let request_data := if is_get then None else Some request_data in
     let app_id := CLIENT_ID E in
     let app_secret := CLIENT_SECRET E in
     let header_key := "hi-params-encrypt" in
     n ← get (fun w => length (requests w));
     let gmt_date := utcnow_gmt E n in
     let params_str :=
       calculate_encrypt app_id method (calculate_path url) gmt_date
         (header_key +:+ ": " +:+ app_id) in
     let sign := calculate_signature_sha256 app_secret params_str in
     let headers :=
       od_update headers
         [(header_key, PyStr app_id);
          ("Date", PyStr gmt_date);
          ("Authorization",
           PyStr ("Signature signature=" +:+ String (ascii_of_nat 34) "" +:+ sign
                  +:+ String (ascii_of_nat 34) "" +:+ ", keyId="
                  +:+ String (ascii_of_nat 34) "" +:+ app_id
                  +:+ String (ascii_of_nat 34) "" +:+ ",algorithm="
                  +:+ String (ascii_of_nat 34) "" +:+ "hmac-sha256"
                  +:+ String (ascii_of_nat 34) "" +:+ ", headers="
                  +:+ String (ascii_of_nat 34) "" +:+ "@request-target date "
                  +:+ header_key +:+ String (ascii_of_nat 34) ""));
          ("Content-Type", PyStr "application/json");
          ("Digest", PyStr ("SHA-256=" +:+ calculate_body_digest_sha256 request_data))] in
     let json_data :=
       match request_data with
       | Some (kv :: rest) => Some (json_dumps_items E (kv :: rest))
       | _ => None
       end in
     modify (log_request
               {| req_method := method; req_url := url; req_data := json_data;
                  req_headers := headers;
                  req_query := if is_get then Some url_params else None;
                  req_body := request_data |});;
     handle_response (api_endpoint E n))
    (fun _ => true)
    (fun err =>
       if subclass (exn_cls err) ClientError
       then raise ApiError [Lit "HTTP request failed: "; str_of_exn err]
       else raise ApiError [Lit "API request failed: "; str_of_exn err]).

End Client.

End Transport.

(* ================================================================= *)
(** * api.py: schemas of the discovered devices *)

Module Client.
Import Py Base Parsers.

(** The fields of [models.DeviceInfo] the functions below read. *)
Record DeviceInfo := {
  device_id : string;
  puid : string;
  type_code : string;
  feature_code : string;
  status : gmap string pyval
}.

Definition set_value_range (r : option string) (a : DeviceAttribute) : DeviceAttribute :=
  {| key := key a; name := name a; attr_type := attr_type a; step := step a;
     value_range := r; value_map := value_map a; read_write := read_write a |}.

Definition set_value_map (m : option (gmap string string)) (a : DeviceAttribute) : DeviceAttribute :=
  {| key := key a; name := name a; attr_type := attr_type a; step := step a;
     value_range := value_range a; value_map := m; read_write := read_write a |}.

(** The set comprehension [{prop.get("propertyKey") for prop in
    property_list if "propertyKey" in prop}]. *)
Definition property_keys (property_list : list (gmap string string)) : gset string :=
  list_to_set (omap (fun prop => prop !! "propertyKey") property_list).

(** The entry at which the inner loop over [property_list] stops. *)
Definition matching_prop (property_list : list (gmap string string)) (k : string)
    : option (gmap string string) :=
  List.find (fun prop => bool_decide (prop !! "propertyKey" = Some k)) property_list.

(** The local variables the loop of [_create_filtered_parser] carries
    from one key to the next: the dictionary under construction and
    [property_value_list], which is unbound ([None]) until a key
    first matches an entry. *)
Record locals := {
  filtered_attributes : gmap string nat;
  property_value_list : option (option string)
}.

(** One turn of the loop over [property_keys].  [attribute] is the
    address found in the base dictionary, so the two assignments
    update the object the base parser holds. *)
Definition filter_step (original_attributes : gmap string nat)
    (property_list : list (gmap string string)) (k : string)
    (lv : locals) (h : store) : result locals * store :=
  match original_attributes !! k with
  | None => (Ok lv, h)
  | Some attribute =>
      let '(pvl, h) :=
        match matching_prop property_list k with
        | Some prop =>
            let v := prop !! "propertyValueList" in
            (Some v,
             match truthy_str v with
             | Some _ => alter (set_value_range v) attribute h
             | None => h
             end)
        | None => (property_value_list lv, h)
        end in
      match (h !! attribute) ≫= (fun a => truthy_map (value_map a)) with
      | None =>
          (Ok {| filtered_attributes := <[k := attribute]> (filtered_attributes lv);
                 property_value_list := pvl |}, h)
      | Some vm =>
          match pvl with
          | None =>
              (Raise (Exn UnboundLocalError
                        [Lit "cannot access local variable 'property_value_list'"]), h)
          | Some v =>
              let h :=
                match truthy_str v with
                | Some l =>
                    let property_value_list_keys := str_split l ","%char in
                    let filtered_value_map :=
                      filter (fun kv => kv.1 ∈ property_value_list_keys) vm in
                    alter (set_value_map (Some filtered_value_map)) attribute h
                | None => h
                end in
              (Ok {| filtered_attributes := <[k := attribute]> (filtered_attributes lv);
                     property_value_list := pvl |}, h)
          end
      end
  end.

Fixpoint filter_loop (original_attributes : gmap string nat)
    (property_list : list (gmap string string)) (keys : list string)
    (lv : locals) (h : store) : result locals * store :=
  match keys with
  | [] => (Ok lv, h)
  | k :: rest =>
      match filter_step original_attributes property_list k lv h with
      | (Ok lv', h') => filter_loop original_attributes property_list rest lv' h'
      | (Raise e, h') => (Raise e, h')
      end
  end.

(** The attribute [_create_filtered_parser] adds when the filtered
    dictionary has none for the power consumption. *)
Definition power_consumption_attribute : DeviceAttribute :=
  Build_DeviceAttribute "f_power_consumption" "Power Consumption" "Number" 1 None None "R".

Section Devices.
Variable other_tables : parser_class -> list (string * DeviceAttribute).

(** [ConnectLifeApiClient._create_filtered_parser].  [order] is the
    order in which Python iterates over the set [property_keys]; the
    result is the new parser, with the base parser and the store as
    the call leaves them. *)
Definition _create_filtered_parser (order : list string) (base_parser : parser)
    (property_list : list (gmap string string)) (h : store)
    : result parser * parser * store :=
  let '(original_attributes, base_parser, h) := attributes other_tables base_parser h in
  match filter_loop original_attributes property_list order
          {| filtered_attributes := ∅; property_value_list := None |} h with
  | (Raise e, h) => (Raise e, base_parser, h)
  | (Ok lv, h) =>
      let filtered := filtered_attributes lv in
      let '(filtered, h) :=
        match filtered !! "f_power_consumption" with
        | Some _ => (filtered, h)
        | None =>
            (<["f_power_consumption" := length h]> filtered,
             h ++ [power_consumption_attribute])
        end in
      (Ok {| cls := BaseBeanParser; _attributes := Some filtered |}, base_parser, h)
  end.

(** [ConnectLifeApiClient.parse_device_status]: the value returned,
    with the dictionary of parsers and the store as the call leaves
    them (a bean parser may have built its attributes). *)
Definition parse_device_status (parsers : gmap string parser) (h : store)
    (device : DeviceInfo) : gmap string pyval * gmap string parser * store :=
  match parsers !! device_id device with
  | None => (status device, parsers, h)
  | Some p =>
      let '(r, p', h') := parser_parse_status other_tables p (status device) h in
      let parsers' := <[device_id device := p']> parsers in
      match r with
      | Ok parsed_status => (parsed_status, parsers', h')
      | Raise _ => (status device, parsers', h')
      end
  end.

End Devices.

End Client.

(* ================================================================= *)
(** * What the design document says, and the inputs of the examples *)

Module Spec.
Import Py Base Parsers World OAuth Transport Client.

(** What the design says [parseStatus] stores for a schema key present
    in a raw status with string values: the label when the enum map
    has the raw value as a key, else the float for a [Number] (nothing
    when the coercion fails), else the raw value itself. *)
Definition parsed_entry (attr : DeviceAttribute) (s : string) : option pyval :=
  match value_map attr ≫= (fun d => d !! s) with
  | Some label => Some (PyStr label)
  | None =>
      if String.eqb (attr_type attr) "Number" then PyFloat <$> float_of_str s
      else Some (PyStr s)
  end.

(** An integer reading of a [Number] attribute that is beyond the
    range of a float. *)
Definition overflows (attr : DeviceAttribute) (v : pyval) : bool :=
  String.eqb (attr_type attr) "Number"
  && match v with
     | PyInt z => PrimFloat.is_infinity (Z2float z)
     | _ => false
     end.

(** What [parseStatus] stores for a schema key whose raw value is of
    any type: for a string, what [parsed_entry] says.  A value that
    is not a string is no key of an enum map: a [Number] stores its
    float, and nothing for [None], a list or a dictionary; another
    kind stores the value as it is, except a list or a dictionary
    when the attribute has a non-empty enum map, for which nothing
    is stored. *)
Definition parsed_value (attr : DeviceAttribute) (v : pyval) : option pyval :=
  match v with
  | PyStr s => parsed_entry attr s
  | PyNone =>
      if String.eqb (attr_type attr) "Number" then None else Some v
  | PyBool b =>
      if String.eqb (attr_type attr) "Number"
      then Some (PyFloat (if b then 1 else 0)) else Some v
  | PyInt z =>
      if String.eqb (attr_type attr) "Number" then Some (PyFloat (Z2float z)) else Some v
  | PyFloat f =>
      if String.eqb (attr_type attr) "Number" then Some (PyFloat f) else Some v
  | PyList _ | PyDict _ =>
      if String.eqb (attr_type attr) "Number" then None
      else match truthy_map (value_map attr) with
           | Some _ => None
           | None => Some v
           end
  end.

(** A declared range is a comma-separated list of items, each a
    single literal or an interval [lo~hi]; an item accepts [x] when
    [x] is the literal or lies in the interval. *)
Definition item_accepts (r : string) (x : float) : Prop :=
  (∃ a b lo hi, str_split r "~"%char = [a; b] ∧
     float_of_str a = Some lo ∧ float_of_str b = Some hi ∧
     PrimFloat.leb lo x = true ∧ PrimFloat.leb x hi = true)
  ∨ (str_contains r "~"%char = false ∧
     ∃ y, float_of_str r = Some y ∧ PrimFloat.eqb x y = true).

Definition in_declared_range (vr : string) (x : float) : Prop :=
  ∃ r, r ∈ str_split vr ","%char ∧ item_accepts r x.

(** An item is well formed when it is a literal that reads as a
    float, or two such literals around one [~]. *)
Definition item_well_formed (r : string) : Prop :=
  if str_contains r "~"%char
  then ∃ a b, str_split r "~"%char = [a; b]
              ∧ is_Some (float_of_str a) ∧ is_Some (float_of_str b)
  else is_Some (float_of_str r).

(** The fields of an attribute that narrowing never assigns. *)
Definition same_identity (a a' : DeviceAttribute) : Prop :=
  key a' = key a ∧ name a' = name a ∧ attr_type a' = attr_type a
  ∧ step a' = step a ∧ read_write a' = read_write a.

(** What narrowing leaves in the object of a retained key [k]: when
    the first entry of the property list for [k] carries a non-empty
    value list, that list replaces the range and a non-empty enum map
    is restricted to the values it lists. *)
Definition narrowed (property_list : list (gmap string string)) (k : string)
    (a : DeviceAttribute) : DeviceAttribute :=
  match matching_prop property_list k ≫= (fun prop => truthy_str (prop !! "propertyValueList")) with
  | Some values =>
      let a := set_value_range (Some values) a in
      match truthy_map (value_map a) with
      | Some vm =>
          set_value_map
            (Some (filter (fun kv => kv.1 ∈ str_split values ","%char) vm)) a
      | None => a
      end
  | None => a
  end.

(** The store and the filtered dictionary after the loop of
    [_create_filtered_parser] has gone through the keys [order]. *)
Definition narrow_store (d0 : gmap string nat) (property_list : list (gmap string string))
    (order : list string) (h : store) : store :=
  foldl (fun h k => match d0 !! k with
                    | Some l => alter (narrowed property_list k) l h
                    | None => h
                    end) h order.

Definition retained (d0 : gmap string nat) (order : list string)
    (filtered : gmap string nat) : gmap string nat :=
  foldl (fun f k => match d0 !! k with
                    | Some l => <[k := l]> f
                    | None => f
                    end) filtered order.


(** The form a refresh-token grant posts. *)
Definition refresh_form (E : env) (refresh_token : pyval) : gmap string pyval :=
  <["grant_type" := PyStr "refresh_token"]>
  (<["client_id" := PyStr (CLIENT_ID E)]>
  (<["client_secret" := PyStr (CLIENT_SECRET E)]>
  (<["refresh_token" := refresh_token]> ∅))).

(** The token endpoint grants: status 200 and a JSON object with an
    access token, no OAuth error and no non-zero result code. *)
Definition granted (resp : token_response) (d : gmap string pyval) : Prop :=
  resp_json resp = Ok (PyDict d) ∧ d !! "error" = None
  ∧ eq_zero (default (PyInt 0) (d !! "resultCode")) = true
  ∧ resp_status resp = 200 ∧ is_Some (d !! "access_token").

(** The error of [_refresh_token] for a record without refresh token,
    as [async_ensure_token_valid] reports it. *)
Definition no_refresh_token : exn :=
  Exn TokenError
    [Lit "Failed to refresh token: ";
     FmtExn TokenError [Lit "No refresh token available"]].

(** The record holds the access token [tok] and an absolute expiry
    that no reading of the clock comes within 300 seconds of. *)
Definition authorized (E : env) (t : gmap string pyval) (tok : pyval) : Prop :=
  ∃ x, t !! "expires_at" = Some (PyFloat x) ∧ PrimFloat.eqb x 0 = false
       ∧ (∀ n, PrimFloat.leb (x - 300) (time E n) = false)
       ∧ t !! "access_token" = Some tok ∧ truthy tok = true.

(** Every reading of the clock is a finite number. *)
Definition clock_finite (E : env) : Prop :=
  ∀ n, ∃ ms, int_of_float (time E n * 1000) = Ok ms.

(** The system parameters, with the access token last. *)
Definition system_parameters (E : env) (timestamp random_str source_id : string)
    (tok : pyval) : list (string * pyval) :=
  [("timeStamp", PyStr timestamp);
   ("version", PyStr "8.1");
   ("languageId", PyStr "1");
   ("timezone", PyStr "UTC");
   ("randStr", PyStr random_str);
   ("appId", PyStr (CLIENT_ID E));
   ("sourceId", PyStr source_id);
   ("platformId", PyInt 5);
   ("accessToken", tok)].

(** The caller's fields merged with the system parameters. *)
Definition merged_parameters (E : env) (data : option (list (string * pyval)))
    (timestamp random_str source_id : string) (tok : pyval) : list (string * pyval) :=
  od_update (default [] data) (system_parameters E timestamp random_str source_id tok).

(** What a request ends with, by the answer of the API: the envelope
    when the status is below 400, the body is a JSON object and its
    result code equals 0; otherwise an [ApiError] whose message
    starts with ["HTTP request failed: "] when the HTTP library
    raises one of its own errors (a failed connection) or the status
    is 400 or more, and with ["API request failed: "] when the
    request raises anything else (a timeout), for a body that is not
    JSON, a value that is not an object, and a result code that is
    absent or not 0. *)
Definition transport_reply (o : api_outcome) : result (gmap string pyval) :=
  match o with
  | ApiRaises e =>
      if subclass (exn_cls e) ClientError
      then Raise (Exn ApiError [Lit "HTTP request failed: "; FmtExn (exn_cls e) (exn_msg e)])
      else Raise (Exn ApiError [Lit "API request failed: "; FmtExn (exn_cls e) (exn_msg e)])
  | ApiResponse resp =>
      if 400 <=? api_status resp then
        Raise (Exn ApiError
                 [Lit "HTTP request failed: ";
                  FmtExn ClientResponseError (api_status_error resp)])
      else
        match api_loads resp with
        | None =>
            Raise (Exn ApiError
                     [Lit "API request failed: ";
                      FmtExn ApiError [Lit "Invalid JSON response: "; Lit (api_text resp)]])
        | Some (PyDict response_data) =>
            if eq_zero (default PyNone (response_data !! "resultCode"))
            then Ok response_data
            else
              Raise (Exn ApiError
                       [Lit "API request failed: ";
                        FmtExn ApiError
                          [Lit "API error: ";
                           Fmt (default (PyStr "Unknown error") (response_data !! "msg"))]])
        | Some response_data =>
            Raise (Exn ApiError
                     [Lit "API request failed: ";
                      FmtExn ApiError
                        [Lit "Unexpected response format: "; Fmt response_data]])
        end
  end.

(** The schema of a [BaseBeanParser]. *)
Definition bean_schema : gmap string DeviceAttribute :=
  list_to_map BaseBeanParser_table.

(** The schema that consists of the oven's first timer status. *)
Definition timer_schema : gmap string DeviceAttribute :=
  {[ "Sand_timer_1_status" := Sand_timer_1_status ]}.

(** No table for the product lines that are plain data. *)
Definition no_tables : parser_class -> list (string * DeviceAttribute) :=
  fun _ => [].

(** [repr] left blank. *)
Definition no_repr : pyval -> string := fun _ => "".

(** The device of the discovery scenario: type 009, feature 199. *)
Definition split_ac_device : DeviceInfo :=
  {| device_id := "dev-1"; puid := "ABC123"; type_code := "009"; feature_code := "199";
     status := <["t_power" := PyStr "1"]> (<["t_work_mode" := PyStr "2"]> ∅) |}.

(** A device whose indoor temperature arrived as an integer too large
    for a float. *)
Definition huge_reading_device : DeviceInfo :=
  {| device_id := "dev-2"; puid := "ABC124"; type_code := "009"; feature_code := "199";
     status := <["f_temp_in" := PyInt (10 ^ 400)]> ∅ |}.

(** A status with readings of several types: a code, an integer, a
    missing reading, a list, and a key the schema does not have. *)
Definition mixed_status : gmap string pyval :=
  <["t_power" := PyStr "1"]>
  (<["t_temp" := PyInt 21]>
  (<["f_temp_in" := PyNone]>
  (<["t_work_mode" := PyList []]>
  (<["t_unknown" := PyInt 1]> ∅)))).

(** A status whose power switch arrived as a list. *)
Definition list_reading : gmap string pyval :=
  <["t_power" := PyList [PyStr "1"]]> ∅.

(** A status with an indoor temperature too large for a float beside
    a power switch that reads well. *)
Definition overflowing_status : gmap string pyval :=
  <["f_temp_in" := PyInt (10 ^ 400)]> (<["t_power" := PyStr "1"]> ∅).



(** A property list that restricts the work mode to fan and cool. *)
Definition fan_or_cool : list (gmap string string) :=
  [ <["propertyKey" := "t_work_mode"]> {[ "propertyValueList" := "0,2" ]} ].

(** A bean parser whose dictionary has been built, with the store
    that holds its attributes. *)
Definition ready_bean : gmap string nat * parser * store :=
  attributes no_tables (new_parser BaseBeanParser) [].

(** Narrowing it to [fan_or_cool]. *)
Definition ready_bean_narrowed : result parser * parser * store :=
  _create_filtered_parser no_tables ["t_work_mode"] ready_bean.1.2 fan_or_cool ready_bean.2.

(** An environment for the examples: the default configuration of
    [config.py], a clock that reads 1000 at the first call and 5000
    afterwards, and given answers of the two servers.  The functions
    of the libraries are left blank. *)
Definition example_env (t : token_outcome) (a : api_outcome) : env :=
  {| CLIENT_ID := "9793620883275788";
     CLIENT_SECRET := "7h1m3gZVlILyBvIFBNmzXwoFYLhkGqG9NQd2jBzuZCqJKCTyCtYwQtXi4tVBjg9B";
     OAUTH2_CALLBACK_URL := "http://homeassistant.local:8123/auth/external/callback";
     OAUTH2_TOKEN := "https://oauth.hijuconn.com/oauth/token";
     API_BASE_URL := "https://juapi-3rd.hijuconn.com";
     time := fun n => match n with O => 1000%float | S _ => 5000%float end;
     utcnow_gmt := fun _ => "";
     uuid1_hex := fun _ => "";
     md5_hex := fun _ => "";
     hmac_sha256_b64 := fun _ _ => "";
     sha256_b64 := fun _ => "";
     json_dumps := fun _ => "";
     json_dumps_items := fun _ => "";
     repr := no_repr;
     token_endpoint := fun _ => t;
     api_endpoint := fun _ => a |}.

(** A session that has no token yet. *)
Definition logged_out : world :=
  {| token := ∅; token_file := None; saves := 0; clock := 0; uuids := 0;
     posts := []; _source_id := None; requests := [] |}.

(** The token endpoint grants a token for an hour, without a refresh
    token. *)
Definition grant_without_refresh : token_outcome :=
  TokenResponse
    {| resp_status := 200;
       resp_json := Ok (PyDict (<["access_token" := PyStr "AT"]>
                                 (<["expires_in" := PyInt 3600]> ∅)));
       resp_text := "" |}.

(** The token endpoint answers 401. *)
Definition unauthorized : token_outcome :=
  TokenResponse
    {| resp_status := 401;
       resp_json := Ok (PyDict (<["message" := PyStr "Unauthorized"]> ∅));
       resp_text := "Unauthorized" |}.

(** The API answers with a success envelope. *)
Definition envelope_ok : api_outcome :=
  ApiResponse
    {| api_status := 200; api_text := "";
       api_loads := Some (PyDict (<["resultCode" := PyInt 0]> ∅));
       api_status_error := [] |}.

(** The session after a code exchange at time 1000 that was granted
    without refresh token. *)
Definition acquired_without_refresh : world :=
  (exchange_code (example_env grant_without_refresh envelope_ok) "code" logged_out).2.

(** A session whose token, acquired at time 1000 for an hour with a
    refresh token, is read at time 5000. *)
Definition due_for_refresh : world :=
  {| token := <["access_token" := PyStr "AT"]>
              (<["refresh_token" := PyStr "RT"]>
              (<["expires_in" := PyInt 3600]>
              (<["expires_at" := PyFloat 4600]> ∅)));
     token_file := Some (<["access_token" := PyStr "AT"]>
                        (<["refresh_token" := PyStr "RT"]>
                        (<["expires_in" := PyInt 3600]>
                        (<["expires_at" := PyFloat 4600]> ∅))));
     saves := 1; clock := 1; uuids := 0; posts := []; _source_id := None;
     requests := [] |}.

(** A session whose token is valid until time 10000. *)
Definition valid_session : world :=
  {| token := <["access_token" := PyStr "AT"]>
              (<["refresh_token" := PyStr "RT"]>
              (<["expires_at" := PyFloat 10000]> ∅));
     token_file := None; saves := 0; clock := 1; uuids := 0; posts := [];
     _source_id := None; requests := [] |}.

(** Four answers of the API: no connection, no answer in time, a
    body that is not JSON, and an envelope with a non-zero result
    code. *)
Definition no_connection : api_outcome :=
  ApiRaises (Exn ClientError [Lit "Cannot connect to host"]).

Definition timed_out : api_outcome :=
  ApiRaises (Exn TimeoutError []).

Definition not_json : api_outcome :=
  ApiResponse {| api_status := 200; api_text := "<html>"; api_loads := None;
                 api_status_error := [] |}.

Definition vendor_error : api_outcome :=
  ApiResponse
    {| api_status := 200; api_text := "";
       api_loads := Some (PyDict (<["resultCode" := PyInt 100021]>
                                  (<["msg" := PyStr "device offline"]> ∅)));
       api_status_error := [] |}.

(** The class of the exception a call ends with. *)
Definition raised_class {A} (r : result A) : option exn_class :=
  match r with
  | Ok _ => None
  | Raise e => Some (exn_cls e)
  end.

End Spec.

(* ================================================================= *)
(** * Properties *)

Import Py Base Parsers World OAuth Transport Client Spec.

(** ** The status codec *)

Lemma truthy_map_lookup (m : option (gmap string string)) (s : string) :
  truthy_map m ≫= (fun d => d !! s) = m ≫= (fun d => d !! s).
Proof.
  destruct m as [d|]; simpl; [|done].
  case_bool_decide as Hd; simpl; [|done].
  by rewrite Hd, lookup_empty.
Qed.

Lemma parse_value_str (attr : DeviceAttribute) (s : string) :
  match parse_value attr (PyStr s) with
  | Ok x => parsed_entry attr s = Some x
  | Raise e => parsed_entry attr s = None ∧ is_value_or_type_error e = true
  end.
Proof.
  unfold parse_value, parsed_entry.
  rewrite <- (truthy_map_lookup (value_map attr) s).
  destruct (truthy_map (value_map attr)) as [d|]; simpl.
  - destruct (d !! s) as [l|]; simpl; [done|].
    destruct (String.eqb _ _); simpl; [|done].
    destruct (float_of_str s); simpl; done.
  - destruct (String.eqb _ _); simpl; [|done].
    destruct (float_of_str s); simpl; done.
Qed.

(** The loop of [parse_status], for statuses on which no coercion
    raises anything but [ValueError] or [TypeError]. *)
Lemma parse_status_lookup (attributes : gmap string DeviceAttribute)
    (status : gmap string pyval) :
  (∀ k attr v e, attributes !! k = Some attr → status !! k = Some v →
     parse_value attr v = Raise e → is_value_or_type_error e = true) →
  ∃ parsed, parse_status attributes status = Ok parsed ∧
    ∀ k, parsed !! k =
      match attributes !! k, status !! k with
      | Some attr, Some v =>
          match parse_value attr v with Ok x => Some x | Raise _ => None end
      | _, _ => None
      end.
Proof.
  unfold parse_status.
  apply (map_fold_weak_ind
    (fun r m =>
       (∀ k attr v e, m !! k = Some attr → status !! k = Some v →
          parse_value attr v = Raise e → is_value_or_type_error e = true) →
       ∃ parsed, r = Ok parsed ∧
         ∀ k, parsed !! k =
           match m !! k, status !! k with
           | Some attr, Some v =>
               match parse_value attr v with Ok x => Some x | Raise _ => None end
           | _, _ => None
           end)).
  - intros _. exists ∅. split; [done|]. intros k. by rewrite !lookup_empty.
  - intros i attr m r Hi IH Hsafe.
    destruct IH as (parsed & -> & Hparsed).
    { intros k a v e Hk. apply Hsafe. rewrite lookup_insert_ne; [done|]. congruence. }
    unfold parse_step; simpl.
    destruct (status !! i) as [v|] eqn:Hv.
    + destruct (parse_value attr v) as [x|e] eqn:Hx.
      * eexists; split; [done|]. intros k.
        destruct (decide (i = k)) as [->|Hne].
        -- by rewrite !lookup_insert_eq, Hv, Hx.
        -- rewrite !lookup_insert_ne by done. apply Hparsed.
      * rewrite (Hsafe i attr v e); [|by rewrite lookup_insert_eq|done..].
        eexists; split; [done|]. intros k.
        destruct (decide (i = k)) as [->|Hne].
        -- rewrite lookup_insert_eq, Hv, Hx. rewrite Hparsed, Hi. done.
        -- rewrite lookup_insert_ne by done. apply Hparsed.
    + eexists; split; [done|]. intros k.
      destruct (decide (i = k)) as [->|Hne].
      * rewrite lookup_insert_eq, Hv. rewrite Hparsed, Hi. done.
      * rewrite lookup_insert_ne by done. apply Hparsed.
Qed.


(** The same for values of any type. *)
Lemma parse_value_any (attr : DeviceAttribute) (v : pyval) :
  overflows attr v = false →
  match parse_value attr v with
  | Ok x => parsed_value attr v = Some x
  | Raise e => parsed_value attr v = None ∧ is_value_or_type_error e = true
  end.
Proof.
  intros Hov. destruct v as [|b|z|f|s|l|d]; try apply parse_value_str;
    unfold parse_value, parsed_value, overflows in *;
    destruct (truthy_map (value_map attr)) as [m|]; simpl in *;
    destruct (String.eqb (attr_type attr) "Number"); simpl in *; try done;
    unfold py_float; by rewrite Hov.
Qed.

(** An integer reading beyond the range of a float ends the whole
    parse with [OverflowError]. *)
Lemma parse_value_overflow (attr : DeviceAttribute) (v : pyval) :
  overflows attr v = true →
  parse_value attr v = Raise (Exn OverflowError [Lit "int too large to convert to float"]).
Proof.
  unfold overflows. intros [Ht Hv]%andb_true_iff.
  destruct v as [|b|z|f|s|l|d]; try done.
  unfold parse_value. rewrite Ht.
  destruct (truthy_map (value_map attr)); simpl; unfold py_float; by rewrite Hv.
Qed.

Lemma parse_status_overflow (attributes : gmap string DeviceAttribute)
    (status : gmap string pyval) (k : string) (attr : DeviceAttribute) (v : pyval) :
  attributes !! k = Some attr → status !! k = Some v → overflows attr v = true →
  parse_status attributes status
  = Raise (Exn OverflowError [Lit "int too large to convert to float"]).
Proof.
  unfold parse_status. revert k attr v.
  apply (map_fold_weak_ind
    (fun r m =>
       (∀ e, r = Raise e → e = Exn OverflowError [Lit "int too large to convert to float"])
       ∧ ∀ k attr v, m !! k = Some attr → status !! k = Some v →
           overflows attr v = true →
           r = Raise (Exn OverflowError [Lit "int too large to convert to float"]))).
  - split; [done|]. intros k attr v. by rewrite lookup_empty.
  - intros i a m r Hi [IHe IH].
    assert (Hstep : ∀ e, parse_step status i a r = Raise e →
              e = Exn OverflowError [Lit "int too large to convert to float"]).
    { intros e. destruct r as [parsed|e0]; unfold parse_step; simpl.
      - destruct (status !! i) as [w|]; [|done].
        destruct (parse_value a w) as [x|e1] eqn:Hx; [done|].
        destruct (is_value_or_type_error e1) eqn:Hc; [done|].
        intros [= <-]. destruct (overflows a w) eqn:Hov.
        + rewrite (parse_value_overflow a w Hov) in Hx. by simplify_eq.
        + pose proof (parse_value_any a w Hov) as Hany. rewrite Hx in Hany.
          destruct Hany as [_ Hany]. congruence.
      - intros [= <-]. by apply IHe. }
    split; [exact Hstep|].
    intros k attr v Hk Hv Hov.
    destruct (decide (i = k)) as [->|Hne].
    + rewrite lookup_insert_eq in Hk. simplify_eq.
      destruct r as [parsed|e0]; unfold parse_step; simpl.
      * by rewrite Hv, (parse_value_overflow attr v Hov).
      * f_equal. by apply IHe.
    + rewrite lookup_insert_ne in Hk by done.
      rewrite (IH k attr v Hk Hv Hov). done.
Qed.

(** C7, as stated, fails.  A list is no key of the enum map of the
    power switch, whose kind is not [Number], and it is not passed
    through: the key is left out.  An integer beyond the range of a
    float does not leave its key alone out: it ends the parse, and
    the power switch beside it is not parsed. *)
Lemma C7_counterexample :
  (attr_type <$> bean_schema !! "t_power" = Some "Enum"
   ∧ parse_status bean_schema list_reading = Ok ∅)
  ∧ (overflowing_status !! "t_power" = Some (PyStr "1")
     ∧ parse_status bean_schema overflowing_status
       = Raise (Exn OverflowError [Lit "int too large to convert to float"])).
Proof. repeat split; vm_compute; reflexivity. Qed.

(** C7 (amended). For every schema and every raw status, with values
    of any type, in which no integer reading of a [Number] attribute
    is beyond the range of a float, [parse_status] returns a
    dictionary that holds exactly the schema keys present in the
    status for which [parsed_value] gives a value: the label when the
    value is a string and a key of the enum map; otherwise, for a
    [Number], the float of the value, the key alone being left out
    when [float()] raises [ValueError] or [TypeError] while the other
    keys are still parsed; otherwise the raw value unchanged, except
    that a list or a dictionary is left out when the attribute has a
    non-empty enum map.  Keys outside the schema never appear. *)
Theorem C7_parse_status_by_key (attributes : gmap string DeviceAttribute)
    (status : gmap string pyval) :
  (∀ k attr v, attributes !! k = Some attr → status !! k = Some v →
     overflows attr v = false) →
  ∃ parsed, parse_status attributes status = Ok parsed ∧
    ∀ k, parsed !! k =
      match attributes !! k, status !! k with
      | Some attr, Some v => parsed_value attr v
      | _, _ => None
      end.
Proof.
  intros Hfit.
  destruct (parse_status_lookup attributes status) as (parsed & Hp & Hk).
  - intros k attr v e Ha Hv He.
    pose proof (parse_value_any attr v (Hfit k attr v Ha Hv)) as H.
    rewrite He in H. apply H.
  - exists parsed. split; [done|]. intros k. rewrite Hk.
    destruct (attributes !! k) as [attr|] eqn:Ha; [|done].
    destruct (status !! k) as [v|] eqn:Hv; [|done].
    pose proof (parse_value_any attr v (Hfit k attr v Ha Hv)) as H.
    destruct (parse_value attr v); [done|]. by destruct H.
Qed.

Lemma C7_witness :
  (∀ k attr v, bean_schema !! k = Some attr → mixed_status !! k = Some v →
     overflows attr v = false)
  ∧ ∃ parsed, parse_status bean_schema mixed_status = Ok parsed ∧
      ∀ k, parsed !! k =
        match bean_schema !! k, mixed_status !! k with
        | Some attr, Some v => parsed_value attr v
        | _, _ => None
        end.
Proof.
  assert (Hfit : ∀ k attr v, bean_schema !! k = Some attr → mixed_status !! k = Some v →
                   overflows attr v = false).
  { intros k attr v _ Hv. unfold mixed_status in Hv. unfold overflows.
    repeat (rewrite lookup_insert in Hv; case_decide;
            [injection Hv as <-; destruct (String.eqb (attr_type attr) "Number");
             [vm_compute; reflexivity | reflexivity]|]).
    by rewrite lookup_empty in Hv. }
  split; [exact Hfit|].
  exact (C7_parse_status_by_key bean_schema mixed_status Hfit).
Defined.

(** What the parse of [mixed_status] holds: the label of the power
    switch and the float of the target temperature. *)
Lemma mixed_status_parsed :
  parse_status bean_schema mixed_status
  = Ok (<["t_power" := PyStr "On"]> (<["t_temp" := PyFloat 21]> ∅)).
Proof. vm_compute. reflexivity. Qed.

(** A string of decimal digits of another script is read as a
    number. *)
Lemma arabic_indic_digits_are_read :
  float_of_str "١٢" = Some 12%float
  ∧ parse_status bean_schema (<["t_temp" := PyStr "١٢"]> ∅)
    = Ok (<["t_temp" := PyFloat 12]> ∅).
Proof. split; vm_compute; reflexivity. Qed.

(** C10. When no parser is registered for the device, or when the
    registered parser raises while it parses, [parse_device_status]
    returns the raw status of the device. *)
Theorem C10_parse_device_status_falls_back
    (other_tables : parser_class -> list (string * DeviceAttribute))
    (parsers : gmap string parser) (h : store) (device : DeviceInfo) :
  parsers !! device_id device = None
  ∨ (∃ p e, parsers !! device_id device = Some p ∧
       (parser_parse_status other_tables p (status device) h).1.1 = Raise e) →
  (parse_device_status other_tables parsers h device).1.1 = status device.
Proof.
  unfold parse_device_status. intros [->|(p & e & -> & He)]; [done|].
  destruct (parser_parse_status other_tables p (status device) h) as [[r p'] h'].
  simpl in He. by subst r.
Qed.

Lemma C10_witness :
  (∃ p e, ({[ "dev-2" := new_parser BaseBeanParser ]} : gmap string parser)
            !! device_id huge_reading_device = Some p ∧
          (parser_parse_status no_tables p (status huge_reading_device) []).1.1 = Raise e)
  ∧ (parse_device_status no_tables {[ "dev-2" := new_parser BaseBeanParser ]} []
       huge_reading_device).1.1 = status huge_reading_device.
Proof.
  assert (Hraise : ∃ p e,
    ({[ "dev-2" := new_parser BaseBeanParser ]} : gmap string parser)
      !! device_id huge_reading_device = Some p ∧
    (parser_parse_status no_tables p (status huge_reading_device) []).1.1 = Raise e).
  { eexists _, _. split; [reflexivity|]. vm_compute. reflexivity. }
  split; [exact Hraise|].
  apply (C10_parse_device_status_falls_back no_tables). right. exact Hraise.
Defined.

(** ** Validation of writes *)

#[local] Arguments py_float : simpl never.

Lemma py_float_str_raises (s : string) (e : exn) :
  py_float (PyStr s) = Raise e → is_value_or_type_error e = true.
Proof. unfold py_float. destruct (float_of_str s); intros; by simplify_eq. Qed.

Lemma py_float_str_ok (s : string) (x : float) :
  py_float (PyStr s) = Ok x → float_of_str s = Some x.
Proof. unfold py_float. destruct (float_of_str s); intros; by simplify_eq. Qed.

Lemma check_range_raises (r : string) (x : float) (e : exn) :
  check_range r x = Raise e → is_value_or_type_error e = true.
Proof.
  unfold check_range. destruct (str_contains r "~").
  - destruct (str_split r "~") as [|a [|b [|c l]]]; try (intros; by simplify_eq).
    destruct (py_float (PyStr a)) eqn:Ha; simpl.
    + destruct (py_float (PyStr b)) eqn:Hb; simpl; [done|].
      intros; simplify_eq. by eapply py_float_str_raises.
    + intros; simplify_eq. by eapply py_float_str_raises.
  - destruct (py_float (PyStr r)) eqn:Hr; simpl; [done|].
    intros; simplify_eq. by eapply py_float_str_raises.
Qed.

Lemma check_range_accepts (r : string) (x : float) :
  check_range r x = Ok true → item_accepts r x.
Proof.
  unfold check_range, item_accepts. destruct (str_contains r "~") eqn:Hc.
  - destruct (str_split r "~") as [|a [|b [|c l]]]; try done.
    destruct (py_float (PyStr a)) as [lo|] eqn:Ha; simpl; [|done].
    destruct (py_float (PyStr b)) as [hi|] eqn:Hb; simpl; [|done].
    intros [= [Hlo Hhi]%andb_true_iff]. left. exists a, b, lo, hi.
    auto using py_float_str_ok.
  - destruct (py_float (PyStr r)) as [y|] eqn:Hr; simpl; [|done].
    intros [= Hy]. right. split; [done|]. exists y. auto using py_float_str_ok.
Qed.

Lemma range_loop_raises (ranges : list string) (x : float) (e : exn) :
  range_loop ranges x = Raise e → is_value_or_type_error e = true.
Proof.
  induction ranges as [|r rest IH]; simpl; [done|].
  destruct (check_range r x) as [[|]|e'] eqn:Hr; [done|exact IH|].
  intros [= <-]. by eapply check_range_raises.
Qed.

Lemma range_loop_accepts (ranges : list string) (x : float) :
  range_loop ranges x = Ok true → ∃ r, r ∈ ranges ∧ item_accepts r x.
Proof.
  induction ranges as [|r rest IH]; simpl; [done|].
  destruct (check_range r x) as [[|]|e'] eqn:Hr; [| |done].
  - intros _. exists r. split; [left|]. by apply check_range_accepts.
  - intros (r' & Hin & Hacc)%IH. exists r'. split; [by right|done].
Qed.

Lemma split_chars_two (sep : ascii) (cur l : list ascii) (a b : string) :
  split_chars sep cur l = [a; b] → existsb (Ascii.eqb sep) l = true.
Proof.
  revert cur. induction l as [|c l IH]; intros cur; simpl; [done|].
  rewrite (Ascii.eqb_sym sep c).
  destruct (Ascii.eqb c sep); [done|]. apply IH.
Qed.

(** On well-formed items the loop raises nothing and accepts whatever
    an item accepts. *)
Lemma check_range_complete (r : string) (x : float) :
  item_well_formed r →
  ∃ b, check_range r x = Ok b ∧ (item_accepts r x → b = true).
Proof.
  unfold item_well_formed, check_range, item_accepts.
  destruct (str_contains r "~") eqn:Hc.
  - intros (a & b & Hs & [lo Ha] & [hi Hb]). rewrite Hs.
    unfold py_float. rewrite Ha, Hb. simpl. eexists. split; [done|].
    intros [(a' & b' & lo' & hi' & Hs' & Ha' & Hb' & Hlo & Hhi)|[? _]]; [|done].
    simplify_eq. by rewrite Hlo, Hhi.
  - intros [y Hy]. unfold py_float. rewrite Hy. simpl. eexists. split; [done|].
    intros [(a' & b' & lo' & hi' & Hs' & _)|[_ (y' & Hy' & Heq)]].
    + apply split_chars_two in Hs'. unfold str_contains in Hc. congruence.
    + by simplify_eq.
Qed.

Lemma range_loop_complete (ranges : list string) (x : float) :
  Forall item_well_formed ranges →
  (∃ r, r ∈ ranges ∧ item_accepts r x) → range_loop ranges x = Ok true.
Proof.
  induction ranges as [|r0 rest IH]; intros Hwf (r & Hin & Hacc).
  { by apply elem_of_nil in Hin. }
  apply Forall_cons in Hwf as [Hwf0 Hwf]. simpl.
  destruct (check_range_complete r0 x Hwf0) as (b & -> & Hb).
  destruct b; [done|].
  apply elem_of_cons in Hin as [->|Hin].
  - by specialize (Hb Hacc).
  - apply IH; [done|]. by exists r.
Qed.

(** With a range declared, the value is read as a float and the range
    alone decides. *)
Lemma validate_value_range (repr : pyval -> string)
    (attributes : gmap string DeviceAttribute) (k : string) (value : pyval)
    (attr : DeviceAttribute) (vr : string) (x : float) :
  attributes !! k = Some attr → String.eqb (read_write attr) "R" = false →
  truthy_str (value_range attr) = Some vr → py_float value = Ok x →
  validate_value repr attributes k value =
    match range_loop (str_split vr ",") x with
    | Ok b => Ok b
    | Raise _ => Ok false
    end.
Proof.
  intros Hk Hrw Hvr Hx. unfold validate_value. rewrite Hk, Hrw, Hvr, Hx. simpl.
  destruct (range_loop _ x) as [b|e] eqn:Hl; [done|].
  by rewrite (range_loop_raises _ _ _ Hl).
Qed.

Lemma bean_t_temp_range (x : float) :
  range_loop (str_split "16~32,61~90" ",") x =
    Ok ((PrimFloat.leb 16 x && PrimFloat.leb x 32)
        || (PrimFloat.leb 61 x && PrimFloat.leb x 90)).
Proof.
  change (str_split "16~32,61~90" ",") with ["16~32"; "61~90"].
  unfold range_loop.
  change (check_range "16~32" x) with (Ok (PrimFloat.leb 16 x && PrimFloat.leb x 32)).
  change (check_range "61~90" x) with (Ok (PrimFloat.leb 61 x && PrimFloat.leb x 90)).
  destruct (PrimFloat.leb 16 x && PrimFloat.leb x 32); [done|].
  by destruct (PrimFloat.leb 61 x && PrimFloat.leb x 90).
Qed.

Lemma bean_t_temp (repr : pyval -> string) (value : pyval) (x : float) :
  py_float value = Ok x →
  validate_value repr bean_schema "t_temp" value =
    Ok ((PrimFloat.leb 16 x && PrimFloat.leb x 32)
        || (PrimFloat.leb 61 x && PrimFloat.leb x 90)).
Proof.
  intros Hx.
  erewrite validate_value_range; [| reflexivity | reflexivity | reflexivity | exact Hx].
  by rewrite bean_t_temp_range.
Qed.

(** In the bean schema every attribute with an enum map declares a
    range. *)
Lemma bean_enums_declare_a_range (k : string) (attr : DeviceAttribute) :
  bean_schema !! k = Some attr → is_Some (truthy_map (value_map attr)) →
  is_Some (truthy_str (value_range attr)).
Proof.
  intros Hk%elem_of_list_to_map_2%list_elem_of_In Hm.
  assert (Hb : forallb (fun kv : string * DeviceAttribute =>
                 match truthy_map (value_map kv.2), truthy_str (value_range kv.2) with
                 | Some _, None => false
                 | _, _ => true
                 end) BaseBeanParser_table = true) by (vm_compute; reflexivity).
  rewrite forallb_forall in Hb. specialize (Hb _ Hk). simpl in Hb.
  destruct Hm as [m Hm]. rewrite Hm in Hb.
  by destruct (truthy_str (value_range attr)).
Qed.

(** What [validate_value] can raise: the [OverflowError] of [float()]
    on an integer, for a writable attribute that declares a range. *)
Lemma validate_value_raises (repr : pyval -> string)
    (attributes : gmap string DeviceAttribute) (k : string) (value : pyval) (e : exn) :
  validate_value repr attributes k value = Raise e →
  ∃ z, value = PyInt z ∧ py_float (PyInt z) = Raise e ∧ exn_cls e = OverflowError.
Proof.
  unfold validate_value.
  destruct (attributes !! k) as [attr|]; [|done].
  destruct (String.eqb (read_write attr) "R"); [done|].
  destruct (truthy_str (value_range attr)) as [vr|].
  - destruct (py_float value) as [x|e'] eqn:Hx; simpl.
    + destruct (range_loop (str_split vr ",") x) as [b|e'] eqn:Hr; [done|].
      apply range_loop_raises in Hr. by rewrite Hr.
    + destruct (is_value_or_type_error e') eqn:Hc; [done|].
      intros [= <-]. unfold py_float in Hx.
      destruct value as [|b|z|f|s|l|d]; simplify_eq/=.
      * destruct (PrimFloat.is_infinity (Z2float z)) eqn:Hz; simplify_eq.
        exists z. unfold py_float. by rewrite Hz.
      * destruct (float_of_str s); simplify_eq.
  - by destruct (truthy_map (value_map attr)).
Qed.

(** C6 (amended). [validate_value] returns [False], and does not
    raise, for a key the schema does not have, for a read-only key,
    and, when the attribute declares a range, for a value whose float
    lies outside every item of the range and for a value that
    [float()] refuses with [ValueError] or [TypeError].  A value
    whose text is not a key of the enum map is refused only when the
    attribute declares no range: with a range declared the enum map
    is not consulted, and every attribute of the bean schema that has
    an enum map declares a range.  A writable attribute whose range
    is well formed accepts every value whose float lies in an item of
    the range.  What it accepts is sound: the
    attribute exists and is writable, and the float of the value lies
    in an item of the declared range, or no range is declared and the
    text of the value is a key of the enum map, if there is one.  For
    the target temperature of the bean schema, whose range is
    ["16~32,61~90"], it returns [True] for 16, 32, 61, 90 and every
    value whose float lies in one of the two intervals, and [False]
    for 33 and 95. *)
Theorem C6_validate_value_fails_closed (repr : pyval -> string)
    (attributes : gmap string DeviceAttribute) (k : string) (value : pyval) :
  (attributes !! k = None → validate_value repr attributes k value = Ok false)
  ∧ (∀ attr, attributes !! k = Some attr → read_write attr = "R" →
       validate_value repr attributes k value = Ok false)
  ∧ (∀ attr vr x, attributes !! k = Some attr →
       truthy_str (value_range attr) = Some vr → py_float value = Ok x →
       ¬ in_declared_range vr x →
       validate_value repr attributes k value = Ok false)
  ∧ (∀ attr vr e, attributes !! k = Some attr →
       truthy_str (value_range attr) = Some vr → py_float value = Raise e →
       is_value_or_type_error e = true →
       validate_value repr attributes k value = Ok false)
  ∧ (∀ attr vr x, attributes !! k = Some attr → read_write attr ≠ "R" →
       truthy_str (value_range attr) = Some vr → py_float value = Ok x →
       Forall item_well_formed (str_split vr ",") → in_declared_range vr x →
       validate_value repr attributes k value = Ok true)
  ∧ (∀ attr d, attributes !! k = Some attr →
       truthy_str (value_range attr) = None → truthy_map (value_map attr) = Some d →
       d !! py_str repr value = None →
       validate_value repr attributes k value = Ok false)
  ∧ (∀ attr vr m, attributes !! k = Some attr →
       truthy_str (value_range attr) = Some vr →
       validate_value repr (<[k := set_value_map m attr]> attributes) k value
       = validate_value repr attributes k value)
  ∧ (∀ k' attr, bean_schema !! k' = Some attr → is_Some (truthy_map (value_map attr)) →
       is_Some (truthy_str (value_range attr)))
  ∧ (validate_value repr attributes k value = Ok true →
     ∃ attr, attributes !! k = Some attr ∧ read_write attr ≠ "R"
       ∧ match truthy_str (value_range attr) with
         | Some vr => ∃ x, py_float value = Ok x ∧ in_declared_range vr x
         | None =>
             match truthy_map (value_map attr) with
             | Some d => is_Some (d !! py_str repr value)
             | None => True
             end
         end)
  ∧ (∀ x, py_float value = Ok x →
       (PrimFloat.leb 16 x && PrimFloat.leb x 32)
       || (PrimFloat.leb 61 x && PrimFloat.leb x 90) = true →
       validate_value repr bean_schema "t_temp" value = Ok true)
  ∧ Forall (fun n => validate_value repr bean_schema "t_temp" (PyInt n) = Ok true)
      [16; 32; 61; 90]
  ∧ Forall (fun n => validate_value repr bean_schema "t_temp" (PyInt n) = Ok false)
      [33; 95].
Proof.
  split; [|split; [|split; [|split; [|split; [|split; [|split; [|split;
    [|split; [|split; [|split]]]]]]]]]].
  - intros Hk. unfold validate_value. by rewrite Hk.
  - intros attr Hk Hrw. unfold validate_value. by rewrite Hk, Hrw.
  - intros attr vr x Hk Hvr Hx Hout. unfold validate_value. rewrite Hk.
    destruct (String.eqb (read_write attr) "R"); [done|].
    rewrite Hvr, Hx. simpl.
    destruct (range_loop _ x) as [[|]|e] eqn:Hl; [|done|].
    + destruct Hout. by apply range_loop_accepts.
    + by rewrite (range_loop_raises _ _ _ Hl).
  - intros attr vr e Hk Hvr He Hcatch. unfold validate_value. rewrite Hk.
    destruct (String.eqb (read_write attr) "R"); [done|].
    rewrite Hvr, He. simpl. by rewrite Hcatch.
  - intros attr vr x Hk Hrw Hvr Hx Hwf Hin. unfold validate_value. rewrite Hk.
    apply String.eqb_neq in Hrw. rewrite Hrw, Hvr, Hx. simpl.
    by rewrite (range_loop_complete _ x Hwf Hin).
  - intros attr d Hk Hvr Hvm Hd. unfold validate_value. rewrite Hk.
    destruct (String.eqb (read_write attr) "R"); [done|].
    rewrite Hvr, Hvm, Hd. by rewrite bool_decide_eq_false_2 by by intros [? ?].
  - intros attr vr m Hk Hvr. unfold validate_value.
    rewrite lookup_insert_eq, Hk. simpl. by rewrite Hvr.
  - exact bean_enums_declare_a_range.
  - unfold validate_value.
    destruct (attributes !! k) as [attr|]; [|done].
    destruct (String.eqb (read_write attr) "R") eqn:Hrw; [done|].
    apply String.eqb_neq in Hrw.
    intros H. exists attr. split; [done|]. split; [done|].
    destruct (truthy_str (value_range attr)) as [vr|].
    + destruct (py_float value) as [x|e] eqn:Hx; simpl in H.
      * exists x. split; [done|].
        destruct (range_loop (str_split vr ",") x) as [b|e] eqn:Hr.
        -- simplify_eq. by apply range_loop_accepts.
        -- by destruct (is_value_or_type_error e).
      * by destruct (is_value_or_type_error e).
    + destruct (truthy_map (value_map attr)) as [d|]; [|done].
      injection H as H. by apply bool_decide_eq_true in H.
  - intros x Hx Hin. by rewrite (bean_t_temp repr value x Hx), Hin.
  - repeat constructor; by erewrite bean_t_temp by reflexivity.
  - repeat constructor; by erewrite bean_t_temp by reflexivity.
Qed.

Lemma C6_witness :
  ((bean_schema !! "t_temp" =
      Some (Build_DeviceAttribute "t_temp" "Target Temperature" "Number" 1
              (Some "16~32,61~90") None "RW")
    ∧ py_float (PyStr "33.5") = Ok 33.5%float
    ∧ ¬ in_declared_range "16~32,61~90" 33.5%float)
   ∧ validate_value no_repr bean_schema "t_temp" (PyStr "33.5") = Ok false)
  ∧ ((py_float (PyStr "On")
      = Raise (Exn ValueError
                 [Lit "could not convert string to float: "; FmtRepr (PyStr "On")])
      ∧ py_float PyNone
        = Raise (Exn TypeError [Lit "float() argument must be a string or a real number"]))
     ∧ validate_value no_repr bean_schema "t_temp" (PyStr "On") = Ok false
     ∧ validate_value no_repr bean_schema "t_temp" PyNone = Ok false).
Proof.
  assert (Hout : ¬ in_declared_range "16~32,61~90" 33.5%float).
  { intros (r & Hr & Hacc). vm_compute in Hr.
    apply list_elem_of_In in Hr. destruct Hr as [<-|[<-|[]]].
    - destruct Hacc as [(a & b & lo & hi & Hs & Ha & Hb & Hlo & Hhi)|[Hc _]].
      + vm_compute in Hs. simplify_eq. vm_compute in Hb.
        injection Hb as <-. vm_compute in Hhi. discriminate.
      + vm_compute in Hc. discriminate.
    - destruct Hacc as [(a & b & lo & hi & Hs & Ha & Hb & Hlo & Hhi)|[Hc _]].
      + vm_compute in Hs. simplify_eq. vm_compute in Ha.
        injection Ha as <-. vm_compute in Hlo. discriminate.
      + vm_compute in Hc. discriminate. }
  split.
  - split; [split; [reflexivity|split; [vm_compute; reflexivity|exact Hout]]|].
    eapply (proj1 (proj2 (proj2 (C6_validate_value_fails_closed no_repr bean_schema
                                   "t_temp" (PyStr "33.5"))))).
    + reflexivity.
    + reflexivity.
    + vm_compute. reflexivity.
    + exact Hout.
  - split; [split; vm_compute; reflexivity|]. split.
    + eapply (proj1 (proj2 (proj2 (proj2 (C6_validate_value_fails_closed no_repr
                                            bean_schema "t_temp" (PyStr "On")))))).
      * reflexivity.
      * reflexivity.
      * vm_compute. reflexivity.
      * reflexivity.
    + eapply (proj1 (proj2 (proj2 (proj2 (C6_validate_value_fails_closed no_repr
                                            bean_schema "t_temp" PyNone))))).
      * reflexivity.
      * reflexivity.
      * vm_compute. reflexivity.
      * reflexivity.
Defined.

(** C6, as stated, fails: the value ["3"] is not a key of the enum map
    of the oven's timer status, and [validate_value] accepts it,
    because it lies in the declared range. *)
Lemma C6_counterexample :
  (value_map Sand_timer_1_status ≫= (fun d => d !! py_str no_repr (PyStr "3"))) = None
  ∧ validate_value no_repr timer_schema "Sand_timer_1_status" (PyStr "3") = Ok true.
Proof. split; vm_compute; reflexivity. Qed.

(** The other way round, the fan speed ["2"] of the bean schema is a
    key of the enum map and is refused, because the declared range
    does not list it. *)
Lemma listed_in_the_map_and_refused :
  ((bean_schema !! "t_fan_speed") ≫= (fun a => value_map a ≫= (fun d => d !! "2")))
  = Some "Low"
  ∧ validate_value no_repr bean_schema "t_fan_speed" (PyStr "2") = Ok false.
Proof. split; vm_compute; reflexivity. Qed.

(** ** Schema resolution *)

(** C4, as stated, fails: the registry has no entry for the pair
    (009, 199), so resolution cannot select one. *)
Lemma C4_counterexample :
  ¬ ∃ c, DEVICE_PARSERS !! (type_code split_ac_device, feature_code split_ac_device) = Some c
         ∧ get_device_parser (type_code split_ac_device) (feature_code split_ac_device) = Ok c.
Proof. intros (c & Hc & _). vm_compute in Hc. discriminate. Qed.

(** C4 (amended). An exact registry entry, when there is one, is what
    resolution returns.  For the device of type 009 and feature 199
    there is neither an exact entry nor a wildcard entry: resolution
    falls back on the default [BaseBeanParser] of the generic types,
    and parsing the status with it gives the labels ["On"] for
    [t_power = "1"] and ["Cool"] for [t_work_mode = "2"]. *)
Theorem C4_split_ac_resolves_to_default_bean
    (other_tables : parser_class -> list (string * DeviceAttribute)) :
  (∀ t f c, DEVICE_PARSERS !! (t, f) = Some c → get_device_parser t f = Ok c)
  ∧ DEVICE_PARSERS !! ("009", "199") = None
  ∧ DEVICE_PARSERS !! ("009", "") = None
  ∧ get_device_parser (type_code split_ac_device) (feature_code split_ac_device)
    = Ok BaseBeanParser
  ∧ (parse_device_status other_tables
       {[ device_id split_ac_device := new_parser BaseBeanParser ]} [] split_ac_device).1.1
    = <["t_power" := PyStr "On"]> (<["t_work_mode" := PyStr "Cool"]> ∅).
Proof.
  split; [|repeat split; vm_compute; reflexivity].
  intros t f c Hc. unfold get_device_parser. by rewrite Hc.
Qed.

Lemma C4_witness :
  DEVICE_PARSERS !! ("006", "299") = Some PortableAC006299Parser
  ∧ get_device_parser "006" "299" = Ok PortableAC006299Parser.
Proof.
  split; [reflexivity|].
  apply (proj1 (C4_split_ac_resolves_to_default_bean no_tables)). reflexivity.
Defined.

(** ** Narrowing a schema to a property list *)

Lemma same_identity_refl (a : DeviceAttribute) : same_identity a a.
Proof. by repeat split. Qed.

Lemma same_identity_trans (a b c : DeviceAttribute) :
  same_identity a b → same_identity b c → same_identity a c.
Proof. unfold same_identity. intros (?&?&?&?&?) (?&?&?&?&?). repeat split; congruence. Qed.

Lemma same_identity_narrowed (pl : list (gmap string string)) (k : string)
    (a : DeviceAttribute) : same_identity a (narrowed pl k a).
Proof.
  unfold narrowed. destruct (_ ≫= _); [|apply same_identity_refl].
  simpl. destruct (truthy_map _); by repeat split.
Qed.

Lemma matching_prop_keys (pl : list (gmap string string)) (k : string) :
  k ∈ property_keys pl → is_Some (matching_prop pl k).
Proof.
  unfold property_keys, matching_prop.
  rewrite elem_of_list_to_set, list_elem_of_omap. intros (prop & Hin & Hk).
  destruct (List.find _ pl) eqn:Hf; [by eexists|].
  apply list_elem_of_In in Hin.
  pose proof (List.find_none _ _ Hf _ Hin) as Hno. simpl in Hno.
  by rewrite bool_decide_eq_true_2 in Hno.
Qed.

(** One turn of the loop, for a key the base dictionary has and the
    property list lists: it succeeds, binds [property_value_list],
    puts the key in the filtered dictionary, and rewrites the object
    at the key's address as [narrowed] says. *)
Lemma filter_step_retained (d0 : gmap string nat) (pl : list (gmap string string))
    (k : string) (l : nat) (lv : locals) (h : store) :
  d0 !! k = Some l → is_Some (matching_prop pl k) →
  ∃ pvl, filter_step d0 pl k lv h =
    (Ok {| filtered_attributes := <[k := l]> (filtered_attributes lv);
           property_value_list := Some pvl |},
     alter (narrowed pl k) l h).
Proof.
  intros Hk [prop Hprop]. unfold filter_step, narrowed. rewrite Hk, Hprop. simpl.
  exists (prop !! "propertyValueList").
  destruct (truthy_str (prop !! "propertyValueList")) as [values|] eqn:Hv; simpl.
  - assert (prop !! "propertyValueList" = Some values) as ->.
    { unfold truthy_str in Hv. destruct (prop !! _) as [r|]; [|done].
      by destruct (String.eqb r ""); simplify_eq. }
    rewrite list_lookup_alter_eq.
    destruct (h !! l) as [a|] eqn:Ha; simpl.
    + destruct (truthy_map (value_map a)) as [vm|] eqn:Hvm; simpl.
      * f_equal. rewrite list_alter_alter_eq.
        apply list_alter_ext; [|done]. intros a'. intros Ha'.
        assert (a' = a) as -> by congruence. simpl. by rewrite Hvm.
      * f_equal. apply list_alter_ext; [|done]. intros a' Ha'.
        assert (a' = a) as -> by congruence. simpl. by rewrite Hvm.
    + f_equal. apply list_alter_ext; [|done]. intros a' Ha'. congruence.
  - destruct (h !! l) as [a|] eqn:Ha; simpl.
    + destruct (truthy_map (value_map a)) as [vm|]; simpl;
        (f_equal; symmetry; by apply list_alter_id).
    + f_equal. symmetry. by apply list_alter_id.
Qed.

Lemma filter_step_absent (d0 : gmap string nat) (pl : list (gmap string string))
    (k : string) (lv : locals) (h : store) :
  d0 !! k = None → filter_step d0 pl k lv h = (Ok lv, h).
Proof. intros Hk. unfold filter_step. by rewrite Hk. Qed.

Lemma filter_loop_retained (d0 : gmap string nat) (pl : list (gmap string string))
    (order : list string) (lv : locals) (h : store) :
  (∀ k, k ∈ order → is_Some (matching_prop pl k)) →
  ∃ lv', filter_loop d0 pl order lv h = (Ok lv', narrow_store d0 pl order h)
         ∧ filtered_attributes lv' = retained d0 order (filtered_attributes lv).
Proof.
  revert lv h. induction order as [|k rest IH]; intros lv h Hm; simpl.
  { by eexists. }
  destruct (d0 !! k) as [l|] eqn:Hk.
  - destruct (filter_step_retained d0 pl k l lv h Hk) as [pvl ->].
    { apply Hm. by left. }
    destruct (IH {| filtered_attributes := <[k:=l]> (filtered_attributes lv);
                    property_value_list := Some pvl |}
                 (alter (narrowed pl k) l h)) as (lv' & -> & Hf).
    { intros k' Hk'. apply Hm. by right. }
    exists lv'. by split.
  - rewrite (filter_step_absent d0 pl k lv h Hk).
    destruct (IH lv h) as (lv' & -> & Hf).
    { intros k' Hk'. apply Hm. by right. }
    exists lv'. by split.
Qed.

Lemma retained_lookup (d0 : gmap string nat) (order : list string)
    (filtered : gmap string nat) (k : string) :
  retained d0 order filtered !! k =
    if decide (k ∈ order ∧ is_Some (d0 !! k)) then d0 !! k else filtered !! k.
Proof.
  revert filtered. induction order as [|k' rest IH]; intros filtered.
  { unfold retained. by simpl. }
  change (retained d0 (k' :: rest) filtered)
    with (retained d0 rest (match d0 !! k' with
                            | Some l => <[k' := l]> filtered
                            | None => filtered
                            end)).
  rewrite IH.
  destruct (decide (k ∈ rest ∧ is_Some (d0 !! k))) as [[Hin Hs]|Hno].
  - rewrite decide_True; [done|]. split; [by right|done].
  - destruct (decide (k = k')) as [->|Hne].
    + destruct (d0 !! k') as [l|] eqn:Hk'.
      * rewrite decide_True; [by rewrite lookup_insert_eq|]. split; [by left|by eexists].
      * rewrite decide_False; [done|]. by intros [_ [? ?]].
    + rewrite decide_False.
      * destruct (d0 !! k'); [by rewrite lookup_insert_ne|done].
      * intros [Hin Hs]. apply Hno. split; [|done].
        by apply elem_of_cons in Hin as [?|?].
Qed.

Lemma narrow_store_length (d0 : gmap string nat) (pl : list (gmap string string))
    (order : list string) (h : store) :
  length (narrow_store d0 pl order h) = length h.
Proof.
  revert h. induction order as [|k rest IH]; intros h; [done|].
  unfold narrow_store in *. simpl. rewrite IH.
  destruct (d0 !! k); [apply length_alter|done].
Qed.

Lemma narrow_store_untouched (d0 : gmap string nat) (pl : list (gmap string string))
    (order : list string) (h : store) (l : nat) :
  (∀ k, k ∈ order → d0 !! k ≠ Some l) →
  narrow_store d0 pl order h !! l = h !! l.
Proof.
  revert h. induction order as [|k rest IH]; intros h Hno; [done|].
  unfold narrow_store in *. simpl. rewrite IH.
  - destruct (d0 !! k) as [l'|] eqn:Hk; [|done].
    apply list_lookup_alter_ne. intros ->. by apply (Hno k); [left|].
  - intros k' Hk'. apply Hno. by right.
Qed.

Lemma narrow_store_identity (d0 : gmap string nat) (pl : list (gmap string string))
    (order : list string) (h : store) (l : nat) (a : DeviceAttribute) :
  h !! l = Some a →
  ∃ a', narrow_store d0 pl order h !! l = Some a' ∧ same_identity a a'.
Proof.
  revert h a. induction order as [|k rest IH]; intros h a Ha.
  { exists a. split; [done|apply same_identity_refl]. }
  unfold narrow_store in *. simpl.
  destruct (d0 !! k) as [l'|] eqn:Hk; [|by apply IH].
  destruct (decide (l' = l)) as [->|Hne].
  - destruct (IH (alter (narrowed pl k) l h) (narrowed pl k a)) as (a' & Ha' & Hid).
    { by rewrite list_lookup_alter_eq, Ha. }
    exists a'. split; [done|].
    eapply same_identity_trans; [apply same_identity_narrowed|done].
  - apply IH. by rewrite list_lookup_alter_ne.
Qed.

(** The object of a retained key whose address no other retained key
    shares ends as [narrowed] says. *)
Lemma narrow_store_retained (d0 : gmap string nat) (pl : list (gmap string string))
    (order : list string) (h : store) (k : string) (l : nat) :
  NoDup order → k ∈ order → d0 !! k = Some l →
  (∀ k', k' ∈ order → d0 !! k' = Some l → k' = k) →
  narrow_store d0 pl order h !! l = narrowed pl k <$> h !! l.
Proof.
  revert h. induction order as [|k' rest IH]; intros h Hnd Hin Hk Hinj.
  { by apply elem_of_nil in Hin. }
  apply NoDup_cons in Hnd as [Hk' Hnd].
  unfold narrow_store in *. simpl.
  apply elem_of_cons in Hin as [<-|Hin].
  - rewrite Hk. change (foldl _ ?h0 rest) with (narrow_store d0 pl rest h0).
    rewrite narrow_store_untouched; [apply list_lookup_alter_eq|].
    intros k2 Hk2 Hl. assert (k2 = k) as -> by (apply Hinj; [by right|done]). done.
  - rewrite IH; [|done|done|done|].
    + destruct (d0 !! k') as [l'|] eqn:Hl'; [|done].
      rewrite list_lookup_alter_ne; [done|]. intros ->.
      assert (k' = k) as -> by (apply Hinj; [by left|done]). done.
    + intros k2 Hk2. apply Hinj. by right.
Qed.



(** What [_create_filtered_parser] returns when the loop goes through
    keys of the property list. *)
Lemma create_filtered_parser_run (other : parser_class -> list (string * DeviceAttribute))
    (order : list string) (p : parser) (pl : list (gmap string string)) (h : store)
    (d0 : gmap string nat) (p0 : parser) (h0 : store) :
  (∀ k, k ∈ order → k ∈ property_keys pl) →
  attributes other p h = (d0, p0, h0) →
  _create_filtered_parser other order p pl h =
    let h1 := narrow_store d0 pl order h0 in
    let f1 := retained d0 order ∅ in
    match f1 !! "f_power_consumption" with
    | Some _ => (Ok {| cls := BaseBeanParser; _attributes := Some f1 |}, p0, h1)
    | None =>
        (Ok {| cls := BaseBeanParser;
               _attributes := Some (<["f_power_consumption" := length h1]> f1) |},
         p0, h1 ++ [power_consumption_attribute])
    end.
Proof.
  intros Hkeys Hattr. unfold _create_filtered_parser. rewrite Hattr.
  destruct (filter_loop_retained d0 pl order
              {| filtered_attributes := ∅; property_value_list := None |} h0)
    as (lv & -> & Hf).
  { intros k Hk. by apply matching_prop_keys, Hkeys. }
  simpl in Hf. rewrite Hf. simpl.
  by destruct (retained d0 order ∅ !! "f_power_consumption").
Qed.

(** C9, as stated, fails: narrowing a bean parser to a property list
    that restricts the work mode rewrites the attribute the base
    parser holds for it. *)
Lemma C9_counterexample :
  ¬ (ready_bean_narrowed.1.2 = ready_bean.1.2
     ∧ resolve ready_bean_narrowed.2 ready_bean.1.1 = resolve ready_bean.2 ready_bean.1.1).
Proof.
  intros [_ H].
  assert (value_range <$> resolve ready_bean_narrowed.2 ready_bean.1.1 !! "t_work_mode"
          = value_range <$> resolve ready_bean.2 ready_bean.1.1 !! "t_work_mode") as Hr
    by (by rewrite H).
  vm_compute in Hr. discriminate.
Qed.

(** C9 (amended). Narrowing returns a new parser with a dictionary of
    its own and leaves the base parser with the dictionary it had,
    but the attributes are shared, not copied: the new dictionary
    holds the base parser's objects, and for every retained key the
    loop assigns the declared value list to [value_range] and the
    restricted map to [value_map] of that object.  Every object keeps
    its key, name, kind, step and access mode, and the objects of the
    keys that are not retained are unchanged. *)
Theorem C9_narrowing_rewrites_shared_attributes
    (other : parser_class -> list (string * DeviceAttribute))
    (order : list string) (base_parser : parser) (pl : list (gmap string string))
    (h : store) (d0 : gmap string nat) (base0 : parser) (h0 : store)
    (r : result parser) (base' : parser) (h' : store) :
  (∀ k, k ∈ order ↔ k ∈ property_keys pl) →
  attributes other base_parser h = (d0, base0, h0) →
  _create_filtered_parser other order base_parser pl h = (r, base', h') →
  base' = base0
  ∧ (∃ filtered, r = Ok {| cls := BaseBeanParser; _attributes := Some filtered |}
       ∧ ∀ k l, filtered !! k = Some l → d0 !! k = Some l ∨ k = "f_power_consumption")
  ∧ (∀ l a, h0 !! l = Some a →
       ∃ a', h' !! l = Some a' ∧ same_identity a a'
             ∧ ((∀ k, k ∈ order → d0 !! k ≠ Some l) → a' = a))
  ∧ (∀ k l a, NoDup order → k ∈ order → d0 !! k = Some l → h0 !! l = Some a →
       (∀ k', k' ∈ order → d0 !! k' = Some l → k' = k) →
       h' !! l = Some (narrowed pl k a)).
Proof.
  intros Horder Hattr Hrun.
  rewrite (create_filtered_parser_run other order base_parser pl h d0 base0 h0) in Hrun;
    [|by intros k ?%Horder|done].
  simpl in Hrun.
  assert (Hf : ∀ k l, retained d0 order ∅ !! k = Some l → d0 !! k = Some l).
  { intros k l. rewrite retained_lookup. by case_decide. }
  assert (Hh : ∃ extra, h' = narrow_store d0 pl order h0 ++ extra).
  { destruct (retained d0 order ∅ !! "f_power_consumption"); simplify_eq.
    - exists []. by rewrite app_nil_r.
    - by eexists. }
  destruct Hh as [extra Hh].
  assert (Hlook : ∀ l a, h0 !! l = Some a → h' !! l = narrow_store d0 pl order h0 !! l).
  { intros l a Ha. rewrite Hh. apply lookup_app_l.
    rewrite narrow_store_length. by eapply lookup_lt_Some. }
  split; [|split; [|split]].
  - by destruct (retained d0 order ∅ !! "f_power_consumption"); simplify_eq.
  - destruct (retained d0 order ∅ !! "f_power_consumption") eqn:Hp; simplify_eq.
    + eexists. split; [done|]. intros k l Hl. left. by apply Hf.
    + eexists. split; [done|]. intros k l Hl.
      destruct (decide (k = "f_power_consumption")) as [->|Hne]; [by right|].
      left. apply Hf. by rewrite lookup_insert_ne in Hl.
  - intros l a Ha. rewrite (Hlook l a Ha).
    destruct (narrow_store_identity d0 pl order h0 l a Ha) as (a' & Ha' & Hid).
    exists a'. split; [done|]. split; [done|]. intros Hno.
    rewrite narrow_store_untouched in Ha' by done. congruence.
  - intros k l a Hnd Hk Hl Ha Hinj. rewrite (Hlook l a Ha).
    by rewrite (narrow_store_retained d0 pl order h0 k l), Ha.
Qed.

Lemma fan_or_cool_keys (k : string) :
  k ∈ ["t_work_mode"] ↔ k ∈ property_keys fan_or_cool.
Proof.
  assert (property_keys fan_or_cool = {["t_work_mode"]}) as -> by reflexivity.
  set_solver.
Qed.

Lemma C9_witness :
  ((∀ k, k ∈ ["t_work_mode"] ↔ k ∈ property_keys fan_or_cool)
   ∧ attributes no_tables ready_bean.1.2 ready_bean.2
     = (ready_bean.1.1, ready_bean.1.2, ready_bean.2)
   ∧ _create_filtered_parser no_tables ["t_work_mode"] ready_bean.1.2 fan_or_cool ready_bean.2
     = (ready_bean_narrowed.1.1, ready_bean_narrowed.1.2, ready_bean_narrowed.2))
  ∧ ready_bean_narrowed.1.2 = ready_bean.1.2.
Proof.
  assert (H1 : attributes no_tables ready_bean.1.2 ready_bean.2
               = (ready_bean.1.1, ready_bean.1.2, ready_bean.2)) by reflexivity.
  assert (H2 : _create_filtered_parser no_tables ["t_work_mode"] ready_bean.1.2
                 fan_or_cool ready_bean.2
               = (ready_bean_narrowed.1.1, ready_bean_narrowed.1.2, ready_bean_narrowed.2))
    by reflexivity.
  split; [split; [exact fan_or_cool_keys|split; [exact H1|exact H2]]|].
  exact (proj1 (C9_narrowing_rewrites_shared_attributes no_tables ["t_work_mode"]
                  ready_bean.1.2 fan_or_cool ready_bean.2 _ _ _ _ _ _
                  fan_or_cool_keys H1 H2)).
Defined.







(** ** The token lifecycle *)

Ltac io_unfold :=
  unfold mbind, io_bind, mret, io_ret, raise, lift, get, modify, try_except, time_time, save.

Lemma float_300 : Z2float 300 = 300%float.
Proof. vm_compute. reflexivity. Qed.

(** With an absolute expiry [x] in the record, the token counts as
    expired from [x - 300] on, and the check leaves the record as it
    is. *)
Lemma is_token_expired_at (E : env) (w : world) (x : float) :
  token w !! "expires_at" = Some (PyFloat x) → PrimFloat.eqb x 0 = false →
  _is_token_expired E w = (Ok (PrimFloat.leb (x - 300) (time E (clock w))), tick w).
Proof.
  intros Hx Hnz. unfold _is_token_expired. io_unfold. simpl.
  rewrite Hx. simpl. rewrite Hnz. simpl. by rewrite float_300.
Qed.

Lemma ensure_valid_nonempty (E : env) (w : world) (k : string) (v : pyval) :
  token w !! k = Some v → bool_decide (token w = ∅) = false.
Proof.
  intros Hk. apply bool_decide_eq_false_2. intros Hempty.
  by rewrite Hempty, lookup_empty in Hk.
Qed.

(** Every path of [_token_request] posts the form once and leaves the
    session's record and the token file alone. *)
Lemma token_request_effects (E : env) (data : gmap string pyval) (w : world) :
  let w' := (_token_request E data w).2 in
  posts w' = posts w ++ [data] ∧ token w' = token w
  ∧ token_file w' = token_file w ∧ saves w' = saves w.
Proof.
  unfold _token_request. io_unfold. simpl.
  destruct (token_endpoint E (length (posts w))) as [msg|resp]; [done|]. simpl.
  destruct (resp_json resp) as [[]|]; simpl; try done.
  repeat case_match; simpl; try done.
Qed.

Lemma refresh_token_effects (E : env) (w : world) :
  let w' := (_refresh_token E w).2 in
  (posts w' = posts w ∨ ∃ data, posts w' = posts w ++ [data]) ∧ token w' = token w
  ∧ token_file w' = token_file w ∧ saves w' = saves w.
Proof.
  unfold _refresh_token. io_unfold. simpl.
  destruct (token w !! "refresh_token") as [rt|]; simpl; [|auto].
  destruct (truthy rt); simpl; [|auto].
  destruct (token_request_effects E (refresh_form E rt) w) as (Hp & Ht & Hf & Hs).
  unfold refresh_form in *. eauto 10.
Qed.

Lemma is_token_expired_true (E : env) (w w0 : world) :
  _is_token_expired E w = (Ok true, w0) →
  token w0 = token w ∧ posts w0 = posts w
  ∧ token_file w0 = token_file w ∧ saves w0 = saves w.
Proof.
  unfold _is_token_expired. io_unfold. simpl.
  destruct (truthy_opt (token w !! "expires_at")); simpl.
  - destruct (sub_int _ _); simpl; [|intros; simplify_eq].
    destruct (float_ge _ _); intros; by simplify_eq.
  - destruct (truthy _); simpl; [|intros; by simplify_eq].
    destruct (float_add _ _); intros; simplify_eq.
Qed.

#[local] Arguments _is_token_expired : simpl never.
#[local] Arguments _refresh_token : simpl never.
#[local] Arguments _token_request : simpl never.

(** C5. When the token is due and the refresh-token grant fails,
    [async_ensure_token_valid] raises [TokenError] (the class the
    code has for an expired token), the record in memory and the
    token file are as they were, nothing is saved, and at most one
    request has been posted: the grant is not tried again. *)
Theorem C5_failed_refresh_keeps_the_record (E : env) (w w0 w1 : world) (e : exn) :
  token w ≠ ∅ →
  _is_token_expired E w = (Ok true, w0) →
  _refresh_token E w0 = (Raise e, w1) →
  async_ensure_token_valid E w
  = (Raise (Exn TokenError [Lit "Failed to refresh token: "; str_of_exn e]), w1)
  ∧ token w1 = token w ∧ token_file w1 = token_file w ∧ saves w1 = saves w
  ∧ (posts w1 = posts w ∨ ∃ data, posts w1 = posts w ++ [data]).
Proof.
  intros Hne Hexp Hfail.
  destruct (is_token_expired_true E w w0 Hexp) as (Ht0 & Hp0 & Hf0 & Hs0).
  pose proof (refresh_token_effects E w0) as Heff. rewrite Hfail in Heff. simpl in Heff.
  destruct Heff as (Hp1 & Ht1 & Hf1 & Hs1).
  split; [|repeat split; try congruence].
  - unfold async_ensure_token_valid. io_unfold. simpl.
    rewrite bool_decide_eq_false_2 by done.
    rewrite Hexp. by rewrite Hfail.
  - rewrite <- Hp0. exact Hp1.
Qed.

(** A grant that is not answered with status 200 fails. *)
Lemma refresh_fails_unless_200 (E : env) (w : world) (rt : pyval) (resp : token_response) :
  token w !! "refresh_token" = Some rt → truthy rt = true →
  token_endpoint E (length (posts w)) = TokenResponse resp →
  resp_status resp ≠ 200 →
  ∃ e w1, _refresh_token E w = (Raise e, w1).
Proof.
  intros Hrt Htr Hresp Hst. unfold _refresh_token, _token_request. io_unfold. simpl.
  rewrite Hrt, Htr. simpl. rewrite Hresp. simpl.
  destruct (resp_json resp) as [[]|]; simpl; eauto.
  repeat case_match; simpl; eauto.
  all: exfalso; apply Hst; by apply Z.eqb_eq, negb_false_iff.
Qed.

Lemma C5_witness :
  (token due_for_refresh ≠ ∅
   ∧ _is_token_expired (example_env unauthorized envelope_ok) due_for_refresh
     = (Ok true, tick due_for_refresh)
   ∧ _refresh_token (example_env unauthorized envelope_ok) (tick due_for_refresh)
     = (Raise (Exn AuthenticationError
                 [Lit "Token request failed: "; Fmt (PyInt 401); Lit " - ";
                  Lit "Unauthorized"]),
        log_post (refresh_form (example_env unauthorized envelope_ok) (PyStr "RT"))
          (tick due_for_refresh)))
  ∧ (async_ensure_token_valid (example_env unauthorized envelope_ok) due_for_refresh).1
    = Raise (Exn TokenError
               [Lit "Failed to refresh token: ";
                FmtExn AuthenticationError
                  [Lit "Token request failed: "; Fmt (PyInt 401); Lit " - ";
                   Lit "Unauthorized"]]).
Proof.
  assert (H0 : token due_for_refresh ≠ ∅).
  { intros H. apply (f_equal (fun m : gmap string pyval => m !! "access_token")) in H.
    vm_compute in H. discriminate. }
  assert (H1 : _is_token_expired (example_env unauthorized envelope_ok) due_for_refresh
               = (Ok true, tick due_for_refresh)) by (vm_compute; reflexivity).
  assert (H2 : _refresh_token (example_env unauthorized envelope_ok) (tick due_for_refresh)
     = (Raise (Exn AuthenticationError
                 [Lit "Token request failed: "; Fmt (PyInt 401); Lit " - ";
                  Lit "Unauthorized"]),
        log_post (refresh_form (example_env unauthorized envelope_ok) (PyStr "RT"))
          (tick due_for_refresh))) by (vm_compute; reflexivity).
  split; [by repeat split|].
  by rewrite (proj1 (C5_failed_refresh_keeps_the_record _ _ _ _ _ H0 H1 H2)).
Defined.

(** When the grant is accepted and carries [expires_in] without an
    absolute expiry, [_token_request] reads the clock once, at the
    receipt of the response, and returns the response with
    [expires_at] set to that time plus [expires_in]. *)
Lemma token_request_sets_expiry (E : env) (data : gmap string pyval) (w : world)
    (resp : token_response) (d : gmap string pyval) (expires_in v : pyval) :
  token_endpoint E (length (posts w)) = TokenResponse resp →
  granted resp d → d !! "expires_in" = Some expires_in → d !! "expires_at" = None →
  float_add (time E (clock w)) expires_in = Ok v →
  _token_request E data w = (Ok (<["expires_at" := v]> d), tick (log_post data w)).
Proof.
  intros Hresp (Hjson & Herr & Hcode & Hstatus & Htok) Hin Hat Hadd.
  unfold _token_request. io_unfold. simpl. rewrite Hresp. simpl. rewrite Hjson. simpl.
  rewrite Herr. rewrite bool_decide_eq_false_2 by by intros [? ?].
  rewrite Hcode, Hstatus. simpl. rewrite bool_decide_eq_true_2 by done. simpl.
  rewrite Hin, Hat. simpl. by rewrite Hadd.
Qed.

(** Before the margin, nothing happens but the reading of the clock. *)
Lemma ensure_valid_fresh (E : env) (w : world) (x : float) :
  token w !! "expires_at" = Some (PyFloat x) → PrimFloat.eqb x 0 = false →
  PrimFloat.leb (x - 300) (time E (clock w)) = false →
  async_ensure_token_valid E w = (Ok tt, tick w).
Proof.
  intros Hx Hnz Hfresh. unfold async_ensure_token_valid. io_unfold. simpl.
  rewrite (ensure_valid_nonempty E w _ _ Hx).
  by rewrite (is_token_expired_at E w x Hx Hnz), Hfresh.
Qed.

(** C1, as stated, fails: a record acquired at time 1000 for 3600
    seconds without refresh token is due at time 5000, and
    [async_ensure_token_valid] posts no grant. *)
Lemma C1_counterexample :
  token acquired_without_refresh !! "expires_at" = Some (PyFloat (1000 + 3600))
  ∧ PrimFloat.leb (1000 + 3600 - 300)
      (time (example_env grant_without_refresh envelope_ok)
         (clock acquired_without_refresh)) = true
  ∧ posts (async_ensure_token_valid (example_env grant_without_refresh envelope_ok)
             acquired_without_refresh).2
    = posts acquired_without_refresh.
Proof. repeat split; vm_compute; reflexivity. Qed.

(** C1 (amended). The absolute expiry is computed once, by
    [_token_request] at the receipt of the grant response, as the
    time of receipt plus [expires_in].  For a record that holds such
    an expiry [x] (not zero), [async_ensure_token_valid] attempts a
    refresh exactly when the clock reads [x - 300] or more: before
    that it returns without any request and leaves the record as it
    is; from then on it posts one refresh-token grant when the record
    holds a refresh token, and otherwise raises [TokenError] without
    any request. *)
Theorem C1_refresh_at_the_margin (E : env) (w : world) (x : float) :
  token w !! "expires_at" = Some (PyFloat x) → PrimFloat.eqb x 0 = false →
  (∀ data resp d expires_in v,
     token_endpoint E (length (posts w)) = TokenResponse resp →
     granted resp d → d !! "expires_in" = Some expires_in → d !! "expires_at" = None →
     float_add (time E (clock w)) expires_in = Ok v →
     _token_request E data w = (Ok (<["expires_at" := v]> d), tick (log_post data w)))
  ∧ (PrimFloat.leb (x - 300) (time E (clock w)) = false →
       async_ensure_token_valid E w = (Ok tt, tick w))
  ∧ (PrimFloat.leb (x - 300) (time E (clock w)) = true →
       match token w !! "refresh_token" with
       | Some refresh_token =>
           if truthy refresh_token
           then posts (async_ensure_token_valid E w).2
                = posts w ++ [refresh_form E refresh_token]
           else async_ensure_token_valid E w = (Raise no_refresh_token, tick w)
       | None => async_ensure_token_valid E w = (Raise no_refresh_token, tick w)
       end).
Proof.
  intros Hx Hnz. split; [|split].
  - intros data resp d expires_in v. apply token_request_sets_expiry.
  - by apply ensure_valid_fresh.
  - intros Hdue. unfold async_ensure_token_valid. io_unfold. simpl.
    rewrite (ensure_valid_nonempty E w _ _ Hx).
    rewrite (is_token_expired_at E w x Hx Hnz), Hdue.
    unfold _refresh_token. io_unfold. simpl.
    destruct (token w !! "refresh_token") as [rt|]; simpl; [|done].
    destruct (truthy rt); simpl; [|done].
    pose proof (token_request_effects E (refresh_form E rt) (tick w)) as (Hp & _).
    unfold refresh_form in *.
    destruct (_token_request E _ (tick w)) as [[tok|e] w1]; simpl in *; exact Hp.
Qed.

Lemma C1_witness :
  (token due_for_refresh !! "expires_at" = Some (PyFloat 4600)
   ∧ PrimFloat.eqb 4600 0 = false
   ∧ PrimFloat.leb (4600 - 300)
       (time (example_env unauthorized envelope_ok) (clock due_for_refresh)) = true)
  ∧ posts (async_ensure_token_valid (example_env unauthorized envelope_ok)
             due_for_refresh).2
    = posts due_for_refresh
      ++ [refresh_form (example_env unauthorized envelope_ok) (PyStr "RT")].
Proof.
  assert (H0 : token due_for_refresh !! "expires_at" = Some (PyFloat 4600))
    by reflexivity.
  assert (H1 : PrimFloat.eqb 4600 0 = false) by reflexivity.
  assert (H2 : PrimFloat.leb (4600 - 300)
                 (time (example_env unauthorized envelope_ok) (clock due_for_refresh))
               = true) by reflexivity.
  split; [by repeat split|].
  exact (proj2 (proj2 (C1_refresh_at_the_margin (example_env unauthorized envelope_ok)
                         due_for_refresh 4600 H0 H1)) H2).
Defined.

(** ** The request transport *)

#[local] Arguments async_ensure_token_valid : simpl never.
#[local] Arguments async_get_access_token : simpl never.
#[local] Arguments timestamp_ms : simpl never.
#[local] Arguments _get_source_id : simpl never.
#[local] Arguments _get_system_parameters : simpl never.
#[local] Arguments handle_response : simpl never.

Lemma ensure_valid_authorized (E : env) (w : world) (tok : pyval) :
  authorized E (token w) tok → async_ensure_token_valid E w = (Ok tt, tick w).
Proof.
  intros (x & Hx & Hnz & Hfresh & _).
  by apply (ensure_valid_fresh E w x).
Qed.

Lemma get_access_token_authorized (E : env) (w : world) (tok : pyval) :
  authorized E (token w) tok → async_get_access_token E w = (Ok tok, tick w).
Proof.
  intros Hauth. unfold async_get_access_token. io_unfold.
  rewrite (ensure_valid_authorized E w tok Hauth). simpl.
  destruct Hauth as (x & _ & _ & _ & -> & _). done.
Qed.

Lemma timestamp_ms_finite (E : env) (w : world) :
  clock_finite E → ∃ ms, timestamp_ms E w = (Ok ms, tick w).
Proof.
  intros Hfin. destruct (Hfin (clock w)) as [ms Hms]. exists ms.
  unfold timestamp_ms. io_unfold. simpl. by rewrite Hms.
Qed.

Lemma get_source_id_finite (E : env) (w : world) :
  clock_finite E →
  ∃ s w', _get_source_id E w = (Ok s, w')
          ∧ token w' = token w ∧ requests w' = requests w.
Proof.
  intros Hfin. unfold _get_source_id, _generate_uuid, uuid1, timestamp_ms. io_unfold. simpl.
  destruct (Hfin (clock w)) as [ms Hms].
  destruct (_source_id w) as [s|]; simpl.
  - destruct (String.eqb s ""); simpl; [|by eexists _, _].
    rewrite Hms. simpl. by eexists _, _.
  - rewrite Hms. simpl. by eexists _, _.
Qed.

Lemma get_system_parameters_authorized (E : env) (w : world) (tok : pyval) :
  authorized E (token w) tok → clock_finite E →
  ∃ timestamp random_str source_id w',
    _get_system_parameters E w
    = (Ok (system_parameters E timestamp random_str source_id tok), w')
    ∧ token w' = token w ∧ requests w' = requests w.
Proof.
  intros Hauth Hfin. unfold _get_system_parameters, uuid1, timestamp_ms. io_unfold. simpl.
  destruct (Hfin (clock w)) as [ms ->]. simpl.
  destruct (get_source_id_finite E (next_uuid (tick w)) Hfin) as (s & w1 & -> & Ht & Hr).
  simpl in Ht, Hr. simpl.
  rewrite (get_access_token_authorized E w1 tok) by (by rewrite Ht).
  destruct Hauth as (_ & _ & _ & _ & _ & ->). simpl.
  eexists _, _, _, _. split; [reflexivity|]. by split.
Qed.

(** C3, as stated, fails: a lost connection, a body that is not JSON
    and a non-zero result code all end in the same class of
    exception, [ApiError]. *)
Lemma C3_counterexample :
  raised_class (_api_request (example_env unauthorized no_connection)
                  "POST" "/device/pu/property/set" None None valid_session).1
  = Some ApiError
  ∧ raised_class (_api_request (example_env unauthorized not_json)
                    "POST" "/device/pu/property/set" None None valid_session).1
    = Some ApiError
  ∧ raised_class (_api_request (example_env unauthorized vendor_error)
                    "POST" "/device/pu/property/set" None None valid_session).1
    = Some ApiError.
Proof. repeat split; vm_compute; reflexivity. Qed.

(** The response handling and the two [except] clauses, case by case. *)
Ltac reply_cases :=
  unfold handle_response, transport_reply; io_unfold;
  match goal with
  | |- context [api_endpoint ?E ?n] =>
      destruct (api_endpoint E n) as [err|resp]; simpl;
      [by destruct (exn_cls err)|];
      destruct (400 <=? api_status resp); simpl; [reflexivity|];
      destruct (api_loads resp) as [[]|]; simpl; try reflexivity;
      by destruct (eq_zero _)
  end.

(** C3 (amended). With a valid token, [_api_request] returns the
    envelope when the status is below 400, the body is a JSON object
    and its result code equals 0.  Every failure raises [ApiError],
    the only class the transport has, and the message tells the cases
    apart.  When the request itself raises, the message is ["HTTP
    request failed: "] with the error if it is an
    [aiohttp.ClientError] (a failed connection), and ["API request
    failed: "] with the error if it is anything else (a timeout).  A
    status of 400 or more gives ["HTTP request failed: "] with the
    error of the status.  Otherwise the message is ["API request
    failed: "] followed by ["Invalid JSON response: "] and the body,
    by ["Unexpected response format: "] and the value, or by ["API
    error: "] and the vendor's message when the result code is absent
    or not 0. *)
Theorem C3_failures_raise_ApiError (E : env) (w : world) (tok : pyval)
    (method endpoint : string) (data headers : option (list (string * pyval))) :
  authorized E (token w) tok → clock_finite E →
  (_api_request E method endpoint data headers w).1
  = transport_reply (api_endpoint E (length (requests w)))
  ∧ (∀ e, transport_reply (api_endpoint E (length (requests w))) = Raise e →
          exn_cls e = ApiError)
  ∧ (∀ err, api_endpoint E (length (requests w)) = ApiRaises err →
       (_api_request E method endpoint data headers w).1
       = Raise (Exn ApiError
                  [Lit (if subclass (exn_cls err) ClientError
                        then "HTTP request failed: " else "API request failed: ");
                   str_of_exn err])).
Proof.
  intros Hauth Hfin.
  assert (Hreply : (_api_request E method endpoint data headers w).1
                   = transport_reply (api_endpoint E (length (requests w)))).
  { unfold _api_request. io_unfold.
    rewrite (ensure_valid_authorized E w tok Hauth). simpl.
    destruct (get_system_parameters_authorized E (tick w) tok Hauth Hfin)
      as (ts & rnd & sid & w1 & -> & Ht & Hr).
    simpl in Ht, Hr. simpl.
    destruct (String.eqb (str_upper method) "GET"); simpl.
    + rewrite (get_access_token_authorized E w1 tok) by (by rewrite Ht). simpl.
      rewrite Hr. reply_cases.
    + rewrite Hr. reply_cases. }
  split; [exact Hreply|]. split.
  - intros e. unfold transport_reply.
    repeat case_match; intros; by simplify_eq.
  - intros err Herr. rewrite Hreply, Herr. unfold transport_reply, str_of_exn.
    by destruct (subclass (exn_cls err) ClientError).
Qed.

(** A request that runs out of time is reported by the general
    clause, not as an HTTP failure. *)
Lemma timeout_is_reported_as_api_failure :
  (_api_request (example_env unauthorized timed_out)
     "POST" "/device/pu/property/set" None None valid_session).1
  = Raise (Exn ApiError [Lit "API request failed: "; FmtExn TimeoutError []]).
Proof. vm_compute. reflexivity. Qed.

Lemma valid_session_authorized (t : token_outcome) (a : api_outcome) :
  authorized (example_env t a) (token valid_session) (PyStr "AT")
  ∧ clock_finite (example_env t a).
Proof.
  split.
  - exists 10000%float. repeat split; try reflexivity. by intros [|n].
  - intros [|n]; eexists; vm_compute; reflexivity.
Qed.

Lemma C3_witness :
  (authorized (example_env unauthorized vendor_error) (token valid_session) (PyStr "AT")
   ∧ clock_finite (example_env unauthorized vendor_error))
  ∧ (_api_request (example_env unauthorized vendor_error)
       "POST" "/device/pu/property/set" None None valid_session).1
    = Raise (Exn ApiError
               [Lit "API request failed: ";
                FmtExn ApiError [Lit "API error: "; Fmt (PyStr "device offline")]]).
Proof.
  split; [apply valid_session_authorized|].
  exact (proj1 (C3_failures_raise_ApiError (example_env unauthorized vendor_error)
                  valid_session (PyStr "AT") "POST" "/device/pu/property/set" None None
                  (proj1 (valid_session_authorized _ _)) (proj2 (valid_session_authorized _ _)))).
Defined.

Lemma od_get_set_eq (k : string) (v : pyval) (d : list (string * pyval)) :
  od_get k (od_set k v d) = Some v.
Proof.
  unfold od_get. induction d as [|[k' v'] d IH]; simpl.
  - by rewrite String.eqb_refl.
  - destruct (String.eqb k' k) eqn:Hk; simpl.
    + by rewrite String.eqb_refl.
    + by rewrite Hk.
Qed.

Lemma od_get_set_ne (k k' : string) (v : pyval) (d : list (string * pyval)) :
  k ≠ k' → od_get k' (od_set k v d) = od_get k' d.
Proof.
  intros Hne. unfold od_get. induction d as [|[k0 v0] d IH]; simpl.
  - by rewrite (proj2 (String.eqb_neq k k')).
  - destruct (String.eqb k0 k) eqn:Hk; simpl.
    + apply String.eqb_eq in Hk as ->. by rewrite (proj2 (String.eqb_neq k k')).
    + destruct (String.eqb k0 k'); [done|exact IH].
Qed.

Lemma od_get_pop_eq (k : string) (d : list (string * pyval)) :
  od_get k (od_pop k d) = None.
Proof.
  unfold od_get, od_pop. induction d as [|[k' v'] d IH]; simpl; [done|].
  destruct (String.eqb k' k) eqn:Hk; simpl; [done|]. by rewrite Hk.
Qed.

Lemma od_set_cons (k : string) (v : pyval) (d : list (string * pyval)) :
  ∃ kv rest, od_set k v d = kv :: rest.
Proof. destruct d as [|[k' v'] d]; simpl; [by eexists _, _|]. destruct (String.eqb k' k); by eexists _, _. Qed.

Lemma caller_data_default (data : option (list (string * pyval))) :
  match data with
  | Some (kv :: rest) => kv :: rest
  | _ => []
  end = default [] data.
Proof. by destruct data as [[|]|]. Qed.

Lemma handle_response_world (o : api_outcome) (w : world) :
  (handle_response o w).2 = w.
Proof.
  unfold handle_response. io_unfold. destruct o as [err|resp]; simpl; [done|].
  destruct (400 <=? api_status resp); simpl; [done|].
  destruct (api_loads resp) as [[]|]; simpl; try done.
  by destruct (negb _).
Qed.

(** C2, as stated, fails: a POST carries the access token in its JSON
    body, and a GET carries it in a header, not in the query
    string. *)
Lemma C2_counterexample :
  (∃ r body,
     requests (_api_request (example_env unauthorized envelope_ok)
                 "POST" "/device/pu/property/set" None None valid_session).2 = [r]
     ∧ req_body r = Some body
     ∧ od_get "accessToken" body = Some (PyStr "AT"))
  ∧ (∃ r query,
       requests (_api_request (example_env unauthorized envelope_ok)
                   "GET" "/clife-svc/pu/get_device_status_list" None None valid_session).2
       = [r]
       ∧ req_query r = Some query
       ∧ od_get "accessToken" query = None
       ∧ od_get "accessToken" (req_headers r) = Some (PyStr "AT")).
Proof.
  split.
  - eexists _, _. split; [vm_compute; reflexivity|]. split; reflexivity.
  - eexists _, _. split; [vm_compute; reflexivity|]. repeat split; reflexivity.
Qed.

(** C2 (amended). With a valid token, [_api_request] sends one
    request, and the merged parameters (the caller's fields updated
    with the system parameters) hold the access token whatever the
    method.  For a GET the token is removed from the parameters
    before they are serialised into the query string, and it travels
    in the [accessToken] header; the request has no body.  For any
    other method the merged parameters, access token included, are
    the JSON body, and no [accessToken] header is added. *)
Theorem C2_access_token_placement (E : env) (w : world) (tok : pyval)
    (method endpoint : string) (data headers : option (list (string * pyval))) :
  authorized E (token w) tok → clock_finite E →
  ∃ timestamp random_str source_id r,
    let merged := merged_parameters E data timestamp random_str source_id tok in
    requests (_api_request E method endpoint data headers w).2 = requests w ++ [r]
    ∧ od_get "accessToken" merged = Some tok
    ∧ if String.eqb (str_upper method) "GET"
      then req_query r = Some (od_pop "accessToken" merged)
           ∧ od_get "accessToken" (od_pop "accessToken" merged) = None
           ∧ req_url r = (API_BASE_URL E +:+ endpoint) +:+ "?"
                         +:+ join_amp (query_param E <$> od_pop "accessToken" merged)
           ∧ req_body r = None ∧ req_data r = None
           ∧ od_get "accessToken" (req_headers r) = Some tok
      else req_query r = None
           ∧ req_url r = API_BASE_URL E +:+ endpoint
           ∧ req_body r = Some merged
           ∧ req_data r = Some (json_dumps_items E merged)
           ∧ od_get "accessToken" (req_headers r)
             = od_get "accessToken" (default [] headers).
Proof.
  intros Hauth Hfin. unfold _api_request. io_unfold.
  rewrite (ensure_valid_authorized E w tok Hauth). simpl.
  destruct (get_system_parameters_authorized E (tick w) tok Hauth Hfin)
    as (ts & rnd & sid & w1 & -> & Ht & Hr).
  simpl in Ht, Hr. simpl. rewrite caller_data_default.
  exists ts, rnd, sid.
  assert (Hmerged : od_get "accessToken" (merged_parameters E data ts rnd sid tok) = Some tok)
    by apply od_get_set_eq.
  destruct (String.eqb (str_upper method) "GET"); simpl.
  - rewrite (get_access_token_authorized E w1 tok) by (by rewrite Ht). simpl.
    eexists. split; [|split; [exact Hmerged|]].
    + match goal with
      | |- context [handle_response ?o ?w2] =>
          pose proof (handle_response_world o w2) as Hw;
          destruct (handle_response o w2) as [[a|e] w3]; simpl in Hw; subst w3
      end; [|case_match]; simpl; by rewrite Hr.
    + simpl. repeat split; try reflexivity.
      * apply od_get_pop_eq.
      * rewrite !od_get_set_ne by done. apply od_get_set_eq.
  - eexists. split; [|split; [exact Hmerged|]].
    + match goal with
      | |- context [handle_response ?o ?w2] =>
          pose proof (handle_response_world o w2) as Hw;
          destruct (handle_response o w2) as [[a|e] w3]; simpl in Hw; subst w3
      end; [|case_match]; simpl; by rewrite Hr.
    + simpl. repeat split; try reflexivity.
      * unfold merged_parameters. simpl.
        destruct (od_set_cons "accessToken" tok
                    (od_set "platformId" (PyInt 5)
                    (od_set "sourceId" (PyStr sid)
                    (od_set "appId" (PyStr (CLIENT_ID E))
                    (od_set "randStr" (PyStr rnd)
                    (od_set "timezone" (PyStr "UTC")
                    (od_set "languageId" (PyStr "1")
                    (od_set "version" (PyStr "8.1")
                    (od_set "timeStamp" (PyStr ts) (default [] data)))))))))) as (kv & rest & ->).
        reflexivity.
      * by rewrite !od_get_set_ne by done.
Qed.

Lemma C2_witness :
  (authorized (example_env unauthorized envelope_ok) (token valid_session) (PyStr "AT")
   ∧ clock_finite (example_env unauthorized envelope_ok))
  ∧ ∃ timestamp random_str source_id r,
      let merged := merged_parameters (example_env unauthorized envelope_ok)
                      None timestamp random_str source_id (PyStr "AT") in
      requests (_api_request (example_env unauthorized envelope_ok)
                  "POST" "/device/pu/property/set" None None valid_session).2
      = requests valid_session ++ [r]
      ∧ od_get "accessToken" merged = Some (PyStr "AT")
      ∧ req_query r = None
      ∧ req_url r = API_BASE_URL (example_env unauthorized envelope_ok)
                    +:+ "/device/pu/property/set"
      ∧ req_body r = Some merged
      ∧ req_data r = Some (json_dumps_items (example_env unauthorized envelope_ok) merged)
      ∧ od_get "accessToken" (req_headers r) = od_get "accessToken" (default [] None).
Proof.
  split; [apply valid_session_authorized|].
  exact (C2_access_token_placement (example_env unauthorized envelope_ok)
           valid_session (PyStr "AT") "POST" "/device/pu/property/set" None None
           (proj1 (valid_session_authorized _ _)) (proj2 (valid_session_authorized _ _))).
Defined.
